(** * Email analysis pipeline and its cache: a shallow embedding

    The development follows two source files of the repository:

    - [backend/app/utils/caching.py]: cache keys, the [cache] decorator and
      [invalidate_cache];
    - [backend/app/services/ai_service.py]: the [AiService] analyzers and the
      orchestrating [analyze_email_content].

    Modelling choices.

    - Python text is a [string], read as a sequence of code points below 256
      (Latin-1); the character classes are those of CPython on that range.
      There [lower] keeps the length of a text, which [str.lower] does not
      on all of Unicode: the statements cut a window of a lower-cased text
      after the lower-casing, as the code does.
    - Python floats are IEEE binary64 numbers: the kernel's primitive
      floats, with the same rounding.
    - A computation of type [M A] transforms a [World] (environment
      variables, the Redis store, the calls made to models so far) and
      returns a value or raises an exception.
    - The Redis server, the OpenAI endpoint, the spaCy and transformers
      models and the LangChain chain are outside the repository: the store
      is a finite map with a list telling which coming commands fail, the
      models are fields of the service instance that answer or fail, and the
      json codec is a class.  Logging and timing are left out. *)

From stdpp Require Import gmap strings list.
From Stdlib Require Import ZArith NArith Ascii String List Bool Lia.
From Stdlib Require Import Permutation Sorted DecimalString HexadecimalString HexadecimalN.
From Stdlib Require Import Floats.

Set Warnings "-inexact-float,-register-all".

Local Open Scope string_scope.
Local Open Scope list_scope.

(** ** Python text primitives *)

Module Py.

Definition code (c : ascii) : N := N_of_ascii c.

Definition between (lo hi n : N) : bool := (lo <=? n)%N && (n <=? hi)%N.

(** [str.isspace] on one character; also the set removed by [str.strip()]. *)
Definition isspace (c : ascii) : bool :=
  let n := code c in
  between 9 13 n || between 28 32 n || (n =? 133)%N || (n =? 160)%N.

(** [str.isdigit] on one character: the ASCII digits and the superscripts
    one, two and three. *)
Definition isdigit (c : ascii) : bool :=
  let n := code c in
  between 48 57 n || (n =? 178)%N || (n =? 179)%N || (n =? 185)%N.

Definition isupper (c : ascii) : bool :=
  let n := code c in
  between 65 90 n || (between 192 222 n && negb (n =? 215)%N).

Definition lower_char (c : ascii) : ascii :=
  if isupper c then ascii_of_N (code c + 32) else c.

(** [s.lower()] *)
Fixpoint lower (s : string) : string :=
  match s with
  | EmptyString => EmptyString
  | String c s' => String (lower_char c) (lower s')
  end.

(** [len(s)] *)
Definition len (s : string) : nat := String.length s.

(** [s[:n]] *)
Fixpoint slice_to (n : nat) (s : string) : string :=
  match n, s with
  | S n', String c s' => String c (slice_to n' s')
  | _, _ => EmptyString
  end.

(** [s.startswith(p)] *)
Definition startswith (s p : string) : bool := String.prefix p s.

(** [needle in hay] on text: substring search. *)
Fixpoint contains (needle hay : string) : bool :=
  String.prefix needle hay ||
  match hay with
  | EmptyString => false
  | String _ hay' => contains needle hay'
  end.

(** [c in chars] for one character. *)
Fixpoint mem_char (c : ascii) (chars : string) : bool :=
  match chars with
  | EmptyString => false
  | String d chars' => Ascii.eqb c d || mem_char c chars'
  end.

Fixpoint lstrip_by (p : ascii -> bool) (s : string) : string :=
  match s with
  | EmptyString => EmptyString
  | String c s' => if p c then lstrip_by p s' else s
  end.

Fixpoint rstrip_by (p : ascii -> bool) (s : string) : string :=
  match s with
  | EmptyString => EmptyString
  | String c s' =>
      match rstrip_by p s' with
      | EmptyString => if p c then EmptyString else String c EmptyString
      | r => String c r
      end
  end.

(** [s.strip()] *)
Definition strip (s : string) : string := rstrip_by isspace (lstrip_by isspace s).

(** [s.lstrip(chars)] *)
Definition lstrip (chars s : string) : string :=
  lstrip_by (fun c => mem_char c chars) s.

(** [s.split(sep)] for a separator of one character; the result is never
    empty: [''.split(sep) == ['']]. *)
Fixpoint split (sep : ascii) (s : string) : list string :=
  match s with
  | EmptyString => [EmptyString]
  | String c s' =>
      if Ascii.eqb c sep then EmptyString :: split sep s'
      else match split sep s' with
           | piece :: rest => String c piece :: rest
           | [] => [String c EmptyString]
           end
  end.

(** [sep.join(parts)] *)
Definition join (sep : string) (parts : list string) : string :=
  String.concat sep parts.

(** [any(...)] and truth of text. *)
Definition any {A} (p : A -> bool) (l : list A) : bool := existsb p l.

Definition nonempty (s : string) : bool :=
  match s with EmptyString => false | _ => true end.

(** [str(n)] for an integer. *)
Definition str_int (n : Z) : string :=
  DecimalString.NilZero.string_of_int (Z.to_int n).

(** Lower-case hexadecimal digits of a natural number, as [%x] prints it. *)
Definition hex (n : N) : string :=
  HexadecimalString.NilZero.string_of_uint (N.to_hex_uint n).

Definition hex_digit (n : N) : ascii :=
  if (n <? 10)%N then ascii_of_N (48 + n) else ascii_of_N (87 + n).

Definition hex2 (n : N) : string :=
  String (hex_digit (n / 16)) (String (hex_digit (n mod 16)) EmptyString).

Definition backslash : ascii := ascii_of_N 92.
Definition squote : ascii := ascii_of_N 39.
Definition dquote : ascii := ascii_of_N 34.

(** [repr] of one character inside a [quote]-delimited literal. *)
Definition repr_char (quote c : ascii) : string :=
  let n := code c in
  if Ascii.eqb c quote || (n =? 92)%N then String backslash (String c EmptyString)
  else if (n =? 9)%N then String backslash "t"
  else if (n =? 10)%N then String backslash "n"
  else if (n =? 13)%N then String backslash "r"
  else if (n <? 32)%N || between 127 160 n || (n =? 173)%N
       then String backslash ("x" +:+ hex2 n)
  else String c EmptyString.

Fixpoint repr_chars (quote : ascii) (s : string) : string :=
  match s with
  | EmptyString => EmptyString
  | String c s' => repr_char quote c +:+ repr_chars quote s'
  end.

(** [repr(s)] for text: single quotes unless the text has a single quote and
    no double quote. *)
Definition repr_str (s : string) : string :=
  let quote : ascii :=
    if mem_char squote s && negb (mem_char dquote s) then dquote else squote in
  String quote (repr_chars quote s +:+ String quote EmptyString).

(** [s.encode()]: UTF-8 bytes of Latin-1 text. *)
Fixpoint encode (s : string) : list Z :=
  match s with
  | EmptyString => []
  | String c s' =>
      let n := Z.of_N (code c) in
      (if (n <? 128)%Z then [n]
       else [Z.lor 192 (Z.shiftr n 6); Z.lor 128 (Z.land n 63)]) ++ encode s'
  end.

End Py.

(** ** MD5, as [hashlib.md5(data).hexdigest()] computes it (RFC 1321) *)

Module MD5.

Local Open Scope Z_scope.

Definition mask32 : Z := 0xffffffff.

Definition add32 (a b : Z) : Z := Z.land (a + b) mask32.

Definition not32 (a : Z) : Z := Z.lxor a mask32.

Definition rotl32 (x c : Z) : Z :=
  Z.land (Z.lor (Z.shiftl x c) (Z.shiftr x (32 - c))) mask32.

Definition shifts : list Z :=
  [ 7; 12; 17; 22; 7; 12; 17; 22; 7; 12; 17; 22; 7; 12; 17; 22;
    5; 9; 14; 20; 5; 9; 14; 20; 5; 9; 14; 20; 5; 9; 14; 20;
    4; 11; 16; 23; 4; 11; 16; 23; 4; 11; 16; 23; 4; 11; 16; 23;
    6; 10; 15; 21; 6; 10; 15; 21; 6; 10; 15; 21; 6; 10; 15; 21 ].

(** [K[i] = floor(2^32 * abs(sin(i + 1)))] *)
Definition K : list Z :=
  [
    0xd76aa478; 0xe8c7b756; 0x242070db; 0xc1bdceee;
    0xf57c0faf; 0x4787c62a; 0xa8304613; 0xfd469501;
    0x698098d8; 0x8b44f7af; 0xffff5bb1; 0x895cd7be;
    0x6b901122; 0xfd987193; 0xa679438e; 0x49b40821;
    0xf61e2562; 0xc040b340; 0x265e5a51; 0xe9b6c7aa;
    0xd62f105d; 0x02441453; 0xd8a1e681; 0xe7d3fbc8;
    0x21e1cde6; 0xc33707d6; 0xf4d50d87; 0x455a14ed;
    0xa9e3e905; 0xfcefa3f8; 0x676f02d9; 0x8d2a4c8a;
    0xfffa3942; 0x8771f681; 0x6d9d6122; 0xfde5380c;
    0xa4beea44; 0x4bdecfa9; 0xf6bb4b60; 0xbebfbc70;
    0x289b7ec6; 0xeaa127fa; 0xd4ef3085; 0x04881d05;
    0xd9d4d039; 0xe6db99e5; 0x1fa27cf8; 0xc4ac5665;
    0xf4292244; 0x432aff97; 0xab9423a7; 0xfc93a039;
    0x655b59c3; 0x8f0ccc92; 0xffeff47d; 0x85845dd1;
    0x6fa87e4f; 0xfe2ce6e0; 0xa3014314; 0x4e0811a1;
    0xf7537e82; 0xbd3af235; 0x2ad7d2bb; 0xeb86d391 ].

Record state := State { sa : Z; sb : Z; sc : Z; sd : Z }.

Definition init : state :=
  State 0x67452301 0xefcdab89 0x98badcfe 0x10325476.

(** Little-endian word of four bytes. *)
Definition word_of_bytes (bs : list Z) : Z :=
  fold_right (fun b acc => b + 256 * acc) 0 bs.

Fixpoint words (n : nat) (bs : list Z) : list Z :=
  match n with
  | O => []
  | S n' => word_of_bytes (firstn 4 bs) :: words n' (skipn 4 bs)
  end.

Definition step (M : list Z) (st : state) (i : nat) : state :=
  let '(State A B C D) := st in
  let iz := Z.of_nat i in
  let '(F, g) :=
    if iz <? 16 then (Z.lor (Z.land B C) (Z.land (not32 B) D), iz)
    else if iz <? 32 then
      (Z.lor (Z.land D B) (Z.land (not32 D) C), (5 * iz + 1) mod 16)
    else if iz <? 48 then (Z.lxor B (Z.lxor C D), (3 * iz + 5) mod 16)
    else (Z.lxor C (Z.lor B (not32 D)), (7 * iz) mod 16) in
  let F' := add32 (add32 (add32 F A) (nth i K 0)) (nth (Z.to_nat g) M 0) in
  State D (add32 B (rotl32 F' (nth i shifts 0))) B C.

Definition process_block (st : state) (block : list Z) : state :=
  let M := words 16 block in
  let '(State A B C D) := fold_left (step M) (seq 0 64) st in
  State (add32 (sa st) A) (add32 (sb st) B) (add32 (sc st) C) (add32 (sd st) D).

Fixpoint le_bytes (n : nat) (x : Z) : list Z :=
  match n with
  | O => []
  | S n' => (x mod 256) :: le_bytes n' (x / 256)
  end.

(** The message followed by 0x80, zeros up to 56 modulo 64, and the bit
    length on eight bytes. *)
Definition pad (msg : list Z) : list Z :=
  let n := Z.of_nat (List.length msg) in
  let zeros := Z.to_nat ((55 - n) mod 64) in
  msg ++ [128] ++ repeat 0 zeros ++ le_bytes 8 ((8 * n) mod 2 ^ 64).

Fixpoint blocks (n : nat) (bs : list Z) : list (list Z) :=
  match n with
  | O => []
  | S n' => firstn 64 bs :: blocks n' (skipn 64 bs)
  end.

Definition digest (msg : list Z) : list Z :=
  let p := pad msg in
  let '(State A B C D) :=
    fold_left process_block (blocks (List.length p / 64) p) init in
  le_bytes 4 A ++ le_bytes 4 B ++ le_bytes 4 C ++ le_bytes 4 D.

Definition hexdigest (msg : list Z) : string :=
  fold_right (fun b acc => Py.hex2 (Z.to_N b) +:+ acc) EmptyString (digest msg).

End MD5.

(** ** Python values that reach [str()] in a cache key *)

Module PyVal.

Inductive pyval : Type :=
| PyNone
| PyBool (b : bool)
| PyInt (n : Z)
| PyStr (s : string)
| PyList (items : list pyval)
| PyDict (items : list (string * pyval))
| PyObject (qualname : string) (address : N).

(** [repr(v)].  A dictionary keeps its insertion order and has text keys; an
    instance of a class that defines neither [__repr__] nor [__str__] prints
    its class and its address. *)
Fixpoint repr (v : pyval) : string :=
  match v with
  | PyNone => "None"
  | PyBool true => "True"
  | PyBool false => "False"
  | PyInt n => Py.str_int n
  | PyStr s => Py.repr_str s
  | PyList items => "[" +:+ Py.join ", " (List.map repr items) +:+ "]"
  | PyDict items =>
      "{" +:+ Py.join ", "
               (List.map (fun kv => Py.repr_str (fst kv) +:+ ": " +:+ repr (snd kv)) items)
          +:+ "}"
  | PyObject qualname address =>
      "<" +:+ qualname +:+ " object at 0x" +:+ Py.hex address +:+ ">"
  end.

(** [str(v)] *)
Definition str (v : pyval) : string :=
  match v with
  | PyStr s => s
  | _ => repr v
  end.

End PyVal.

Import PyVal.

(** ** The world outside the Python process, and computations over it *)

Module Runtime.

Record ChatRequest := {
  chat_model : string;
  chat_system : string;
  chat_user : string;
  chat_max_tokens : Z;
  chat_temperature : float
}.

(** Calls that leave the process, in the order they were made. *)
Inductive Event : Type :=
| ChatCompletion (req : ChatRequest)
| SentimentModel (text : string)
| SpacyNlp (text : string)
| SummarizeChain (docs : list string).

(** Exception classes the code distinguishes. *)
Inductive exn : Type :=
| RedisError
| ValueError
| TypeError
| BackendError.

Definition exn_eqb (a b : exn) : bool :=
  match a, b with
  | RedisError, RedisError | ValueError, ValueError
  | TypeError, TypeError | BackendError, BackendError => true
  | _, _ => false
  end.

(** [redis_data] maps a key to its value and the time-to-live it was stored
    with; no time passes in the model, so nothing expires.  [redis_faults]
    tells, for each Redis command still to come, whether the server is
    unreachable for it (an exhausted list means reachable). *)
Record World := {
  environ : gmap string string;
  redis_data : gmap string (string * Z);
  redis_faults : list bool;
  trace : list Event
}.

Inductive Res (A : Type) : Type :=
| Ok (a : A)
| Raise (e : exn).
Arguments Ok {A} a.
Arguments Raise {A} e.

Definition M (A : Type) : Type := World -> Res A * World.

Definition ret {A} (a : A) : M A := fun w => (Ok a, w).

Definition raise {A} (e : exn) : M A := fun w => (Raise e, w).

Definition bind {A B} (m : M A) (k : A -> M B) : M B :=
  fun w =>
    match m w with
    | (Ok a, w') => k a w'
    | (Raise e, w') => (Raise e, w')
    end.

(** [try: body  except (classes): handler] *)
Definition try_except {A} (body : M A) (classes : list exn) (handler : exn -> M A) : M A :=
  fun w =>
    match body w with
    | (Ok a, w') => (Ok a, w')
    | (Raise e, w') =>
        if existsb (exn_eqb e) classes then handler e w' else (Raise e, w')
    end.

(** [except Exception] *)
Definition Exception : list exn := [RedisError; ValueError; TypeError; BackendError].

Definition emit (ev : Event) : M unit :=
  fun w => (Ok tt, {| environ := environ w; redis_data := redis_data w;
                      redis_faults := redis_faults w; trace := trace w ++ [ev] |}).

(** A call to an external model: recorded, and failing when the model does. *)
Definition external {A} (ev : Event) (answer : option A) : M A :=
  bind (emit ev) (fun _ => match answer with Some a => ret a | None => raise BackendError end).

(** [os.getenv(name, default)] *)
Definition getenv (name default : string) : M string :=
  fun w => (Ok (match environ w !! name with Some v => v | None => default end), w).

End Runtime.

Import Runtime.

Declare Scope py_scope.
Delimit Scope py_scope with py.
Notation "'do' x <- m ; k" := (bind m (fun x => k))
  (at level 10, x name, m at level 100, k at level 200) : py_scope.
Notation "'do_' m ; k" := (bind m (fun _ => k))
  (at level 10, m at level 100, k at level 200) : py_scope.
Local Open Scope py_scope.

(** ** [backend/app/utils/caching.py] *)

Module Caching.

(** The [json] codec over the objects [V] a wrapped function returns.
    [json_dumps] is [None] when [json.dumps] raises [TypeError] or
    [ValueError]; [json_loads] is [None] when [json.loads] raises
    [json.JSONDecodeError].  Other exceptions of the codec, such as a
    [RecursionError] on deeply nested text, are not modelled: a statement
    about a stored text names the outcome of [json_loads] it is about. *)
Class Json (V : Type) := {
  py_none : V;
  json_dumps : V -> option string;
  json_loads : string -> option V
}.

(** *** The Redis client *)

Definition with_redis (data : gmap string (string * Z)) (faults : list bool)
    (w : World) : World :=
  {| environ := environ w; redis_data := data; redis_faults := faults;
     trace := trace w |}.

(** One command sent to the server: it uses up one entry of [redis_faults]
    and raises [redis.RedisError] when the server is unreachable for it. *)
Definition after_command (w : World) : World :=
  with_redis (redis_data w) (tl (redis_faults w)) w.

Definition redis_command {A} (run : World -> A * World) : M A :=
  fun w =>
    if hd false (redis_faults w) then (Raise RedisError, after_command w)
    else let '(a, w') := run (after_command w) in (Ok a, w').

(** [redis_client.get(key)] *)
Definition redis_get (key : string) : M (option string) :=
  redis_command (fun w => (fst <$> (redis_data w !! key), w)).

(** [redis_client.setex(key, ttl, value)] *)
Definition redis_setex (key : string) (ttl : Z) (value : string) : M unit :=
  redis_command (fun w =>
    (tt, with_redis (<[key := (value, ttl)]> (redis_data w)) (redis_faults w) w)).

(** Glob-style patterns of the KEYS command: a star for any run of
    characters, a question mark for any one character, bracketed classes
    with caret negation and ranges, and a backslash to quote the next
    character. *)
Inductive class_item : Type :=
| CChar (c : ascii)
| CRange (lo hi : ascii).

Inductive token : Type :=
| TStar
| TAny
| TClass (negated : bool) (items : list class_item)
| TLit (c : ascii).

Definition is_char (n : N) (c : ascii) : bool := (Py.code c =? n)%N.

(** The items of a class up to its closing bracket, and what follows it. *)
Fixpoint class_split (p : string) : list class_item * string :=
  match p with
  | EmptyString => ([], EmptyString)
  | String c rest =>
      if is_char 92 c then
        match rest with
        | String x rest' =>
            let '(items, r) := class_split rest' in (CChar x :: items, r)
        | EmptyString => ([CChar c], EmptyString)
        end
      else if is_char 93 c then ([], rest)
      else
        match rest with
        | String d (String hi rest') =>
            if is_char 45 d then
              let '(items, r) := class_split rest' in (CRange c hi :: items, r)
            else let '(items, r) := class_split rest in (CChar c :: items, r)
        | _ => let '(items, r) := class_split rest in (CChar c :: items, r)
        end
  end.

Fixpoint tokens (fuel : nat) (p : string) : list token :=
  match fuel, p with
  | S fuel', String c rest =>
      if is_char 42 c then TStar :: tokens fuel' rest
      else if is_char 63 c then TAny :: tokens fuel' rest
      else if is_char 91 c then
        let '(negated, body) :=
          match rest with
          | String x r => if is_char 94 x then (true, r) else (false, rest)
          | EmptyString => (false, rest)
          end in
        let '(items, r) := class_split body in
        TClass negated items :: tokens fuel' r
      else if is_char 92 c then
        match rest with
        | String x r => TLit x :: tokens fuel' r
        | EmptyString => [TLit c]
        end
      else TLit c :: tokens fuel' rest
  | _, _ => []
  end.

Definition class_item_mem (c : ascii) (item : class_item) : bool :=
  match item with
  | CChar x => Ascii.eqb x c
  | CRange lo hi =>
      let '(lo, hi) := (N.min (Py.code lo) (Py.code hi), N.max (Py.code lo) (Py.code hi)) in
      Py.between lo hi (Py.code c)
  end.

Fixpoint token_match (ts : list token) (s : string) : bool :=
  match ts with
  | [] => negb (Py.nonempty s)
  | TStar :: ts' =>
      (fix star (s : string) : bool :=
         token_match ts' s ||
         match s with
         | EmptyString => false
         | String _ s' => star s'
         end) s
  | TAny :: ts' =>
      match s with
      | EmptyString => false
      | String _ s' => token_match ts' s'
      end
  | TClass negated items :: ts' =>
      match s with
      | EmptyString => false
      | String c s' =>
          xorb negated (existsb (class_item_mem c) items) && token_match ts' s'
      end
  | TLit x :: ts' =>
      match s with
      | EmptyString => false
      | String c s' => Ascii.eqb x c && token_match ts' s'
      end
  end.

Definition glob_match (pattern key : string) : bool :=
  token_match (tokens (String.length pattern) pattern) key.

(** [redis_client.keys(pattern)] *)
Definition redis_keys (pattern : string) : M (list string) :=
  redis_command (fun w =>
    (List.filter (glob_match pattern) (List.map fst (map_to_list (redis_data w))), w)).

(** [redis_client.delete] applied to the keys: removes them and answers how
    many existed. *)
Definition delete_keys (keys : list string) (data : gmap string (string * Z))
    : Z * gmap string (string * Z) :=
  fold_left
    (fun '(n, d) key =>
       match d !! key with
       | Some _ => ((n + 1)%Z, delete key d)
       | None => (n, d)
       end)
    keys (0%Z, data).

Definition redis_delete (keys : list string) : M Z :=
  redis_command (fun w =>
    let '(n, data) := delete_keys keys (redis_data w) in
    (n, with_redis data (redis_faults w) w)).

(** *** [is_cache_enabled] *)
Definition is_cache_enabled : M bool :=
  do v <- getenv "ENABLE_EMAIL_CACHE" "True";
  ret (String.eqb (Py.lower v) "true").

(** *** [generate_cache_key] *)

(** [sorted(kwargs.items())]: the keys of a dictionary are distinct, so the
    pairs are ordered by their keys, compared code point by code point. *)
Fixpoint insert_item (x : string * pyval) (l : list (string * pyval))
    : list (string * pyval) :=
  match l with
  | [] => [x]
  | y :: l' => if String.leb (fst x) (fst y) then x :: l else y :: insert_item x l'
  end.

Definition sorted (items : list (string * pyval)) : list (string * pyval) :=
  fold_right insert_item [] items.

Definition cache_prefix : string := "intellimail:cache:".

Definition key_string (func_name : string) (args : list pyval)
    (kwargs : list (string * pyval)) : string :=
  let key_parts := [func_name] in
  let key_parts := fold_left (fun parts arg => parts ++ [PyVal.str arg]) args key_parts in
  let sorted_items := sorted kwargs in
  let key_parts :=
    fold_left (fun parts '(k, v) => parts ++ [k +:+ ":" +:+ PyVal.str v])
      sorted_items key_parts in
  Py.join "_" key_parts.

Definition generate_cache_key (func_name : string) (args : list pyval)
    (kwargs : list (string * pyval)) : string :=
  cache_prefix +:+ MD5.hexdigest (Py.encode (key_string func_name args kwargs)).

Section Decorator.

Context {V : Type} `{Json V}.

(** *** [serialize_for_cache] *)
Definition serialize_for_cache (obj : V) : M string :=
  match json_dumps obj with
  | Some text => ret text
  | None => raise ValueError
  end.

(** *** [deserialize_from_cache] *)
Definition deserialize_from_cache (data : string) : M V :=
  match json_loads data with
  | Some obj => ret obj
  | None => ret py_none
  end.

(** *** [cache]: [cache ttl name func] is the [wrapper] that decorating
    [func], named [name], with [@cache(ttl=ttl)] produces. *)
Definition cache (ttl : Z) (func_name : string)
    (func : list pyval -> list (string * pyval) -> M V)
    (args : list pyval) (kwargs : list (string * pyval)) : M V :=
  do enabled <- is_cache_enabled;
  if negb enabled then func args kwargs
  else
    let cache_key := generate_cache_key func_name args kwargs in
    do looked_up <-
      try_except
        (do cached_value <- redis_get cache_key;
         match cached_value with
         | Some text =>
             if Py.nonempty text
             then do obj <- deserialize_from_cache text; ret (Some obj)
             else ret None
         | None => ret None
         end)
        [RedisError]
        (fun _ => do result <- func args kwargs; ret (Some result));
    match looked_up with
    | Some returned => ret returned
    | None =>
        do result <- func args kwargs;
        do_ try_except
              (do serialized <- serialize_for_cache result;
               redis_setex cache_key ttl serialized)
              [ValueError; RedisError]
              (fun _ => ret tt);
        ret result
    end.

End Decorator.

(** *** [invalidate_cache] *)
Definition invalidate_cache (pattern : string) : M Z :=
  try_except
    (do keys <- redis_keys (cache_prefix +:+ pattern +:+ "*");
     match keys with
     | _ :: _ => do count <- redis_delete keys; ret count
     | [] => ret 0%Z
     end)
    [RedisError]
    (fun _ => ret 0%Z).

End Caching.

Import Caching.

(** ** [backend/app/services/ai_service.py] *)

Module AiService.

Local Open Scope float_scope.

(** One entry of [doc.ents], and the dictionary built from it. *)
Record Entity := {
  ent_text : string;
  ent_label : string;
  ent_start : Z;
  ent_end : Z
}.

(** The dictionary [analyze_email_content] returns; [sentiment_score] is
    [None] when the dictionary has no such key. *)
Record AnalysisResult := {
  summary : string;
  sentiment : string;
  sentiment_score : option float;
  entities : list Entity;
  categories : list string;
  importance_score : float;
  action_items : list string;
  topics : list string
}.

(** The attributes of [self].  Each model answers [None] when calling it
    raises.  [openai_client] answers the [message.content] of the first
    choice; [sentiment_model] answers the label and score of the first
    result; [summarize_chain] is the map-reduce chain run on the chunks that
    [text_splitter] cuts.  [address] is the identity that the default
    [repr] of the instance prints. *)
Record AiService := {
  address : N;
  openai_client : ChatRequest -> option string;
  nlp : string -> option (list Entity);
  sentiment_model : string -> option (string * float);
  text_splitter : string -> list string;
  summarize_chain : list string -> option string
}.

(** An email is a dictionary whose values are text or [None]. *)
Definition Email : Type := list (string * option string).

(** [email.get(key, default)] *)
Fixpoint email_get (email : Email) (key : string) (default : option string)
    : option string :=
  match email with
  | [] => default
  | (k, v) :: rest => if String.eqb k key then v else email_get rest key default
  end.

(** How an f-string prints a field. *)
Definition fmt (v : option string) : string :=
  match v with
  | Some s => s
  | None => "None"
  end.

Definition newline : ascii := ascii_of_N 10.
Definition nl : string := String newline EmptyString.

(** A triple-quoted template written at the indentation of the method
    bodies: a line break, the indented lines, and the indentation of the
    closing quotes. *)
Definition indent : string := "            ".

Definition template (lines : list string) : string :=
  nl +:+ fold_right (fun line acc => indent +:+ line +:+ nl +:+ acc) indent lines.

(** [self.openai_client.chat.completions.create(...)] followed by
    [response.choices[0].message.content]. *)
Definition chat_completion (self : AiService) (req : ChatRequest) : M string :=
  external (ChatCompletion req) (openai_client self req).

Definition chat_request (system user : string) (max_tokens : Z)
    (temperature : float) : ChatRequest :=
  {| chat_model := "gpt-3.5-turbo"; chat_system := system; chat_user := user;
     chat_max_tokens := max_tokens; chat_temperature := temperature |}.

(** *** [_generate_summary] *)
Definition summary_request (subject : option string) (text : string) : ChatRequest :=
  chat_request
    "You are an email summarization assistant. Provide a concise summary of the email in 1-2 sentences."
    ("Subject: " +:+ fmt subject +:+ nl +:+ nl +:+ "Email: " +:+ text)
    100 0.3.

Definition _generate_summary (self : AiService) (subject : option string)
    (text : string) : M string :=
  try_except
    (if (Py.len text <? 4000)%nat then
       do content <- chat_completion self (summary_request subject text);
       ret (Py.strip content)
     else
       let docs := text_splitter self text in
       do summary <- external (SummarizeChain docs) (summarize_chain self docs);
       ret (Py.strip summary))
    Exception
    (fun _ => ret "Could not generate summary.").

(** *** [_analyze_sentiment] *)
Definition _analyze_sentiment (self : AiService) (text : string)
    : M (string * float) :=
  try_except
    (let truncated_text :=
       if (512 <? Py.len text)%nat then Py.slice_to 512 text else text in
     do result <-
       external (SentimentModel truncated_text) (sentiment_model self truncated_text);
     let label := Py.lower (fst result) in
     let score := snd result in
     if String.eqb label "positive" || (String.eqb label "neutral" && (0.7 <? score))
     then ret ("positive", score)
     else if String.eqb label "negative" || (String.eqb label "neutral" && (score <? 0.3))
     then ret ("negative", score)
     else ret ("neutral", score))
    Exception
    (fun _ => ret ("neutral", 0.5)).

(** *** [_extract_entities] *)
Definition _extract_entities (self : AiService) (text : string) : M (list Entity) :=
  try_except
    (let scanned := Py.slice_to (N.to_nat 10000) text in
     do ents <- external (SpacyNlp scanned) (nlp self scanned);
     let entities :=
       fold_left
         (fun entities ent =>
            entities ++ [ {| ent_text := ent_text ent; ent_label := ent_label ent;
                             ent_start := ent_start ent; ent_end := ent_end ent |} ])
         ents [] in
     ret entities)
    Exception
    (fun _ => ret []).

(** *** [_categorize_email] *)
Definition categorize_prompt (subject : option string) (text : string) : string :=
  template
    [ "Please categorize the following email into one or more of these categories:";
      "- Urgent"; "- Action Required"; "- Meeting"; "- Information";
      "- Project Update"; "- External Client"; "- Internal Team"; "- Personal";
      "- Marketing"; "- Sales"; "- HR"; "- Finance"; "- Technical";
      "";
      "Return only the category names as a comma-separated list.";
      "";
      "Subject: " +:+ fmt subject;
      "";
      "Email: " +:+ Py.slice_to 1000 text ].

Definition categorize_request (subject : option string) (text : string)
    : ChatRequest :=
  let prompt := categorize_prompt subject text in
  chat_request "You are an email categorization assistant." prompt 50 0.1.

Definition _categorize_email (self : AiService) (subject : option string)
    (text : string) : M (list string) :=
  try_except
    (do content <- chat_completion self (categorize_request subject text);
     let categories :=
       List.map Py.strip
         (List.filter (fun cat => Py.nonempty (Py.strip cat)) (Py.split "," content)) in
     ret categories)
    Exception
    (fun _ => ret ["Uncategorized"]).

(** *** [_calculate_importance] *)

(** [min(a, b)] and [max(a, b)] on floats, as the built-ins compare them. *)
Definition py_min (a b : float) : float := if b <? a then b else a.
Definition py_max (a b : float) : float := if a <? b then b else a.

(** [float(n)] for the length of a list (below [2^63]). *)
Definition float_of_len (n : nat) : float :=
  PrimFloat.of_uint63 (Uint63.of_Z (Z.of_nat n)).

Definition urgent_keywords : list string :=
  ["urgent"; "asap"; "immediately"; "deadline"; "important"; "critical"].

Definition action_keywords : list string :=
  ["please"; "request"; "action"; "review"; "approve"; "confirm"].

(** The method calls no model.  A [subject] that is [None] has no [lower]:
    the [AttributeError] is caught and the score is the fallback. *)
Definition _calculate_importance (subject : option string) (text : string)
    (entities : list Entity) : float :=
  match subject with
  | None => 0.5
  | Some subject =>
      let importance := 0.0 in
      let importance :=
        if Py.any (fun word => Py.contains word (Py.lower subject)) urgent_keywords
        then importance + 0.4 else importance in
      let importance :=
        if Py.any (fun word => Py.contains word (Py.slice_to 500 (Py.lower text)))
             urgent_keywords
        then importance + 0.2 else importance in
      let importance :=
        if Py.any (fun word => Py.contains word (Py.slice_to 1000 (Py.lower text)))
             action_keywords
        then importance + 0.2 else importance in
      let person_entities :=
        List.filter
          (fun e => existsb (String.eqb (ent_label e)) ["PERSON"; "ORG"]) entities in
      let importance :=
        importance + py_min (float_of_len (List.length person_entities) * 0.05) 0.2 in
      py_min (py_max importance 0.0) 1.0
  end.

(** *** [_extract_action_items] *)
Definition action_items_prompt (text : string) : string :=
  template
    [ "Extract any action items, tasks, or requests from this email.";
      "Return them as a list of concise bullet points.";
      "If there are no action items, return an empty list.";
      "";
      "Email: " +:+ Py.slice_to 2000 text ].

Definition action_items_request (text : string) : ChatRequest :=
  let prompt := action_items_prompt text in
  chat_request "You are an assistant that extracts action items from emails."
    prompt 200 0.1.

Definition _extract_action_items (self : AiService) (text : string)
    : M (list string) :=
  try_except
    (do response <- chat_completion self (action_items_request text);
     let content := Py.strip response in
     let action_items :=
       fold_left
         (fun action_items line =>
            let line := Py.strip line in
            if Py.nonempty line &&
               (Py.startswith line "-" || Py.startswith line "*" ||
                Py.any Py.isdigit (list_ascii_of_string (Py.slice_to 2 line)))
            then
              let item := Py.lstrip "-*0123456789. " line in
              if Py.nonempty item then action_items ++ [item] else action_items
            else action_items)
         (Py.split newline content) [] in
     ret action_items)
    Exception
    (fun _ => ret []).

(** *** [_extract_topics] *)
Definition topics_prompt (text : string) : string :=
  template
    [ "Extract the main topics or themes from this email.";
      "Return them as a list of 2-4 keywords or short phrases.";
      "";
      "Email: " +:+ Py.slice_to 1500 text ].

Definition topics_request (text : string) : ChatRequest :=
  let prompt := topics_prompt text in
  chat_request "You are an assistant that extracts main topics from text."
    prompt 100 0.1.

Definition _extract_topics (self : AiService) (text : string) : M (list string) :=
  try_except
    (do response <- chat_completion self (topics_request text);
     let content := Py.strip response in
     let topics :=
       fold_left
         (fun topics line =>
            let line := Py.strip line in
            if Py.nonempty line &&
               (Py.startswith line "-" || Py.startswith line "*" ||
                Py.any Py.isdigit (list_ascii_of_string (Py.slice_to 2 line)))
            then
              let topic := Py.lstrip "-*0123456789. " line in
              if Py.nonempty topic then topics ++ [topic] else topics
            else topics)
         (Py.split newline content) [] in
     ret topics)
    Exception
    (fun _ => ret []).

(** *** [analyze_email_content]: the body of the method, before
    decoration. *)
Definition no_content : AnalysisResult :=
  {| summary := "No content to analyze";
     sentiment := "neutral";
     sentiment_score := None;
     entities := [];
     categories := [];
     importance_score := 0.0;
     action_items := [];
     topics := [] |}.

Definition analyze_email_content (self : AiService) (email : Email)
    : M AnalysisResult :=
  let text := email_get email "body" (Some EmptyString) in
  let subject := email_get email "subject" (Some EmptyString) in
  match text with
  | None | Some EmptyString => ret no_content
  | Some text =>
      do summary <- _generate_summary self subject text;
      do sentiment_and_score <- _analyze_sentiment self text;
      do entities <- _extract_entities self text;
      do categories <- _categorize_email self subject text;
      let importance_score := _calculate_importance subject text entities in
      do action_items <- _extract_action_items self text;
      do topics <- _extract_topics self text;
      ret {| summary := summary;
             sentiment := fst sentiment_and_score;
             sentiment_score := Some (snd sentiment_and_score);
             entities := entities;
             categories := categories;
             importance_score := importance_score;
             action_items := action_items;
             topics := topics |}
  end.

(** *** The method as decorated with [@cache(ttl=3600)].  The wrapper
    receives [(self, email)] as positional arguments; [to_py] places the
    returned dictionary among the objects the json codec handles. *)
Definition py_self (self : AiService) : pyval :=
  PyObject "app.services.ai_service.AiService" (address self).

Definition py_email (email : Email) : pyval :=
  PyDict
    (List.map
       (fun kv => (fst kv, match snd kv with Some s => PyStr s | None => PyNone end))
       email).

Definition cached_analyze_email_content {V : Type} `{Json V}
    (to_py : AnalysisResult -> V) (self : AiService) (email : Email) : M V :=
  cache 3600 "analyze_email_content"
    (fun _ _ => do result <- analyze_email_content self email; ret (to_py result))
    [py_self self; py_email email] [].

End AiService.

Import AiService.

(** ** Auxiliary definitions for the statements *)

Definition traced (w : World) (ev : Event) : World :=
  {| environ := environ w; redis_data := redis_data w;
     redis_faults := redis_faults w; trace := trace w ++ [ev] |}.

(** A service whose models all fail, and a world with an empty store. *)
Definition failing_service : AiService :=
  {| address := 1;
     openai_client := fun _ => None;
     nlp := fun _ => None;
     sentiment_model := fun _ => None;
     text_splitter := fun _ => [];
     summarize_chain := fun _ => None |}.

Definition quiet_world : World :=
  {| environ := ∅; redis_data := ∅; redis_faults := []; trace := [] |}.


(** A service whose classifier always answers the given label and score. *)
Definition classifier (label : string) (score : float) : AiService :=
  {| address := 1;
     openai_client := fun _ => None;
     nlp := fun _ => None;
     sentiment_model := fun _ => Some (label, score);
     text_splitter := fun _ => [];
     summarize_chain := fun _ => None |}.

(** [word] occurs somewhere in [s]; one of the [keywords] does. *)
Definition occurs_in (word s : string) : Prop :=
  exists before after, s = before +:+ word +:+ after.

Definition mentions (keywords : list string) (s : string) : Prop :=
  exists word, In word keywords /\ occurs_in word s.

Definition person_or_org (e : Entity) : Prop :=
  ent_label e = "PERSON" \/ ent_label e = "ORG".

#[global] Instance person_or_org_dec (e : Entity) : Decision (person_or_org e).
Proof. unfold person_or_org. apply _. Defined.

(** An entity of the given label; the span does not matter to the scorer. *)
Definition entity (label : string) : Entity :=
  {| ent_text := "Acme"; ent_label := label; ent_start := 0; ent_end := 4 |}.

(** The order in which [sorted] arranges the items of a dictionary. *)
Definition key_le (x y : string * pyval) : Prop := String.leb (fst x) (fst y) = true.


(** The switch [ENABLE_EMAIL_CACHE] is on in [w]; the server answers the next
    command of [w]; the server does not. *)
Definition cache_enabled (w : World) : Prop := is_cache_enabled w = (Ok true, w).

Definition reachable (w : World) : Prop := hd false (redis_faults w) = false.

Definition unreachable (w : World) : Prop := hd false (redis_faults w) = true.

(** A small codec over [pyval], enough to run the decorator: integers and
    [None] are written and read back, instances of classes are refused. *)
Definition toy_dumps (v : pyval) : option string :=
  match v with
  | PyNone => Some "null"
  | PyInt n => Some (Py.str_int n)
  | _ => None
  end.

Definition toy_loads (text : string) : option pyval :=
  if String.eqb text "null" then Some PyNone
  else if String.eqb text "7" then Some (PyInt 7)
  else None.

Definition toy_json : Json pyval :=
  {| py_none := PyNone; json_dumps := toy_dumps; json_loads := toy_loads |}.

(** A codec over analysis results that writes every result as an empty
    object and reads only what it wrote, or null. *)
Definition analysis_json : Json (option AnalysisResult) :=
  {| py_none := None;
     json_dumps := fun _ => Some "{}";
     json_loads := fun text =>
       if String.eqb text "null" then Some None
       else if String.eqb text "{}" then Some (Some no_content)
       else None |}.

(** A service at a given address whose models answer fixed values. *)
Definition service_at (addr : N) : AiService :=
  {| address := addr;
     openai_client := fun _ => Some "- Reply to the client";
     nlp := fun _ => Some [];
     sentiment_model := fun _ => Some ("POSITIVE", 0.9%float);
     text_splitter := fun text => [text];
     summarize_chain := fun _ => Some "A summary." |}.

Definition sample_email : Email :=
  [("id", Some "17"); ("subject", Some "Quarterly report");
   ("body", Some "Please find the report attached.")].

Definition world_with (data : gmap string (string * Z)) (faults : list bool) : World :=
  {| environ := ∅; redis_data := data; redis_faults := faults; trace := [] |}.

(** The cache key of the decorated [analyze_email_content] called on the
    instance at [addr] with the sample email. *)
Definition analysis_key (addr : N) : string :=
  generate_cache_key "analyze_email_content"
    [py_self (service_at addr); py_email sample_email] [].

(** Two requests for the analysis of the sample email, served one after the
    other by instances at the given addresses, over a reachable, initially
    empty store. *)
Definition two_requests (first second : N) : Res (option AnalysisResult) * World :=
  let '(_, w1) :=
    cached_analyze_email_content (H := analysis_json) Some (service_at first)
      sample_email (world_with ∅ []) in
  cached_analyze_email_content (H := analysis_json) Some (service_at second)
    sample_email w1.

(** Functions to decorate: one returns an integer, one an object that json
    cannot write. *)
Definition returns_seven : list pyval -> list (string * pyval) -> M pyval :=
  fun _ _ => ret (PyInt 7).

Definition returns_object : list pyval -> list (string * pyval) -> M pyval :=
  fun _ _ => ret (PyObject "app.models.email.Email" 4096).

(** A store where the key of the sample analysis holds text that is not
    JSON. *)
Definition corrupted_world : World :=
  world_with {[ analysis_key 4096 := ("<html>502 Bad Gateway</html>", 3600%Z) ]} [].

(** *** The line rule of the action-item and topic extractors, as the
    specification words it *)

(** A line qualifies when it starts with a dash or a star, or has a digit
    among its first two characters. *)
Definition bullet_or_numbered (line : string) : bool :=
  match line with
  | EmptyString => false
  | String c rest =>
      Ascii.eqb c "-" || Ascii.eqb c "*" || Py.isdigit c ||
      match rest with
      | String d _ => Py.isdigit d
      | EmptyString => false
      end
  end.

(** The items of a model answer: its lines, trimmed; those that qualify;
    without their leading bullet, digit, dot and space characters; those
    that are not empty. *)
Definition item_lines (answer : string) : list string :=
  List.filter Py.nonempty
    (List.map (Py.lstrip "-*0123456789. ")
       (List.filter bullet_or_numbered
          (List.map Py.strip (Py.split newline answer)))).

(** The lines of an answer that are not blank, trimmed. *)
Definition trimmed_lines (lines : list string) : list string :=
  List.filter Py.nonempty (List.map Py.strip lines).

(** *** The taxonomy of the categorizer prompt *)
Definition taxonomy : list string :=
  ["Urgent"; "Action Required"; "Meeting"; "Information"; "Project Update";
   "External Client"; "Internal Team"; "Personal"; "Marketing"; "Sales"; "HR";
   "Finance"; "Technical"].

(** A service whose chat model always answers [content]. *)
Definition answering (content : string) : AiService :=
  {| address := 1;
     openai_client := fun _ => Some content;
     nlp := fun _ => None;
     sentiment_model := fun _ => None;
     text_splitter := fun _ => [];
     summarize_chain := fun _ => None |}.

(** *** Patterns and stores for [invalidate_cache] *)

(** The characters that a KEYS pattern reads specially: star, question
    mark, opening bracket and backslash. *)
Definition special (c : ascii) : bool :=
  is_char 42 c || is_char 63 c || is_char 91 c || is_char 92 c.

(** A pattern without special characters. *)
Fixpoint plain (pattern : string) : bool :=
  match pattern with
  | EmptyString => true
  | String c pattern' => negb (special c) && plain pattern'
  end.

(** The keys held by the store. *)
Definition stored_keys (w : World) : list string :=
  List.map fst (map_to_list (redis_data w)).

(** The keys of the store that begin with the namespace and [pattern]. *)
Definition keys_with_prefix (pattern : string) (w : World) : list string :=
  List.filter (String.prefix (cache_prefix +:+ pattern)) (stored_keys w).

(** Every Redis command that [invalidate_cache] sends is answered: the
    listing, and the deletion when there is something to delete. *)
Definition store_answers (pattern : string) (w : World) : Prop :=
  reachable w /\ (keys_with_prefix pattern w = [] \/ reachable (after_command w)).

(** A store with three entries. *)
Definition sample_store (faults : list bool) : World :=
  world_with
    (<["intellimail:cache:x:1" := ("1", 3600%Z)]>
       (<["intellimail:cache:x:2" := ("2", 3600%Z)]>
          (<["intellimail:cache:y:1" := ("3", 3600%Z)]> ∅)))
    faults.

(** * Further code of the repository *)

(** ** [AiService.enhance_search_query] *)

Definition search_request (query : string) : ChatRequest :=
  chat_request
    "You are an AI assistant that helps improve search queries for email search. Expand this query with relevant keywords and synonyms to improve search results, but keep it concise."
    ("Original query: " +:+ query)
    100 0.3%float.

Definition enhance_search_query (self : AiService) (query : string) : M string :=
  try_except
    (do content <- chat_completion self (search_request query);
     let enhanced_query := Py.strip content in
     ret enhanced_query)
    Exception
    (fun _ => ret query).

(** ** [caching.get_cache_stats] *)

(** [d.get(key, default)] on the items of a dictionary. *)
Fixpoint dict_get (items : list (string * pyval)) (key : string) (default : pyval)
    : pyval :=
  match items with
  | [] => default
  | (k, v) :: rest => if String.eqb k key then v else dict_get rest key default
  end.

(** [redis_client.info()]: the dictionary the server answers is
    [server_info]. *)
Definition redis_info (server_info : list (string * pyval))
    : M (list (string * pyval)) :=
  redis_command (fun w => (server_info, w)).

(** [error_text] is [str(e)] for the exception the client raises. *)
Definition get_cache_stats (server_info : list (string * pyval))
    (error_text : string) : M (list (string * pyval)) :=
  try_except
    (do info <- redis_info server_info;
     do keys <- redis_keys "intellimail:cache:*";
     let key_count := Z.of_nat (List.length keys) in
     ret [ ("total_keys", PyInt key_count);
           ("memory_used", dict_get info "used_memory_human" (PyStr "unknown"));
           ("hits", dict_get info "keyspace_hits" (PyInt 0));
           ("misses", dict_get info "keyspace_misses" (PyInt 0));
           ("uptime", dict_get info "uptime_in_seconds" (PyInt 0)) ])
    [RedisError]
    (fun _ => ret [ ("error", PyStr error_text); ("status", PyStr "unavailable") ]).

(** ** [src/app.py]: the analysis helpers of the first application *)

Module App.

(** A request of [client.chat.completions.create] that sets no
    temperature. *)
Record CompletionRequest := {
  completion_model : string;
  completion_system : string;
  completion_user : string;
  completion_max_tokens : Z
}.

(** The module-level [client]: it answers the content of the first choice,
    or raises. *)
Definition Client : Type := CompletionRequest -> Res string.

Definition sentiment_request (text : string) : CompletionRequest :=
  {| completion_model := "gpt-3.5-turbo";
     completion_system :=
       "You are a sentiment analysis tool. Analyze the sentiment of the following email text and provide a single word: 'positive', 'neutral', or 'negative'.";
     completion_user := text;
     completion_max_tokens := 10 |}.

(** [analyze_sentiment] *)
Definition analyze_sentiment (client : Client) (text : string) : Res string :=
  match client (sentiment_request text) with
  | Raise e => Raise e
  | Ok content =>
      let sentiment := Py.lower (Py.strip content) in
      if Py.contains "positive" sentiment then Ok "positive"
      else if Py.contains "negative" sentiment then Ok "negative"
      else Ok "neutral"
  end.

Definition summary_request (text : string) : CompletionRequest :=
  {| completion_model := "gpt-3.5-turbo";
     completion_system :=
       "You are an email summarization tool. Provide a concise summary of the following email in 1-2 sentences.";
     completion_user := text;
     completion_max_tokens := 100 |}.

(** [summarize_email] *)
Definition summarize_email (client : Client) (text : string) : Res string :=
  match client (summary_request text) with
  | Raise e => Raise e
  | Ok content => Ok (Py.strip content)
  end.

End App.

(** ** [backend/app/utils/config.py]: choosing the configuration *)

Module Config.

(** What a call returns, or the exception it raises with its message. *)
Inductive Outcome (A : Type) : Type :=
| Returned (a : A)
| Raised (class : exn) (message : string).
Arguments Returned {A} a.
Arguments Raised {A} class message.

Inductive ConfigClass : Type :=
| DevelopmentConfig
| TestingConfig
| ProductionConfig.

(** [os.getenv(name)] and [os.getenv(name, default)] over [os.environ]. *)
Definition os_getenv (environ : gmap string string) (name : string) : option string :=
  environ !! name.

Definition os_getenv_default (environ : gmap string string) (name default : string)
    : string :=
  match environ !! name with
  | Some v => v
  | None => default
  end.

Definition required_vars : list string :=
  [ "FLASK_SECRET_KEY"; "DATABASE_URI"; "MONGO_URI"; "CELERY_BROKER_URL";
    "CELERY_RESULT_BACKEND"; "JWT_SECRET_KEY"; "SENTRY_DSN"; "GOOGLE_CLIENT_ID";
    "GOOGLE_CLIENT_SECRET"; "OPENAI_API_KEY" ].

(** [not os.getenv(var)] *)
Definition unset (environ : gmap string string) (var : string) : bool :=
  match os_getenv environ var with
  | Some v => negb (Py.nonempty v)
  | None => true
  end.

(** [ProductionConfig.validate] *)
Definition validate (environ : gmap string string) : Outcome unit :=
  let missing := List.filter (unset environ) required_vars in
  match missing with
  | _ :: _ =>
      Raised ValueError
        ("Missing required environment variables: " +:+ Py.join ", " missing)
  | [] => Returned tt
  end.

(** [config_by_env.get(env, ProductionConfig)] *)
Definition config_by_env (env : string) : option ConfigClass :=
  if String.eqb env "development" then Some DevelopmentConfig
  else if String.eqb env "testing" then Some TestingConfig
  else if String.eqb env "production" then Some ProductionConfig
  else None.

(** [get_config] *)
Definition get_config (environ : gmap string string) : Outcome ConfigClass :=
  let env := os_getenv_default environ "FLASK_ENV" "production" in
  let config_class :=
    match config_by_env env with
    | Some class => class
    | None => ProductionConfig
    end in
  if String.eqb env "production" then
    match validate environ with
    | Raised class message => Raised class message
    | Returned _ => Returned config_class
    end
  else Returned config_class.

End Config.

(** ** Auxiliary definitions for the further statements *)

(** The first and the last character of a text. *)
Definition first_char (s : string) : option ascii :=
  match s with
  | EmptyString => None
  | String c _ => Some c
  end.

Fixpoint last_char (s : string) : option ascii :=
  match s with
  | EmptyString => None
  | String c EmptyString => Some c
  | String _ s' => last_char s'
  end.

(** The three standard sentiment labels. *)
Definition sentiment_labels : list string := ["positive"; "negative"; "neutral"].

(** The text a bounded analyzer hands to its model: the whole text when it
    has at most [bound] characters, its first [bound] characters
    otherwise. *)
Definition bounded (bound : nat) (text : string) : string :=
  if (bound <? Py.len text)%nat then Py.slice_to bound text else text.

(** The six calls of one analysis, in the order they are made. *)
Definition analysis_calls (self : AiService) (subject : option string)
    (text : string) : list Event :=
  [ (if (Py.len text <? 4000)%nat
     then ChatCompletion (summary_request subject text)
     else SummarizeChain (text_splitter self text));
    SentimentModel (bounded 512 text);
    SpacyNlp (Py.slice_to (N.to_nat 10000) text);
    ChatCompletion (categorize_request subject text);
    ChatCompletion (action_items_request text);
    ChatCompletion (topics_request text) ].

(** The world after some more calls. *)
Definition traced_all (w : World) (events : list Event) : World :=
  {| environ := environ w; redis_data := redis_data w;
     redis_faults := redis_faults w; trace := trace w ++ events |}.

(** The world with another store content. *)
Definition stored (w : World) (data : gmap string (string * Z)) : World :=
  with_redis data (redis_faults w) w.

(** Every character of a text passes the test. *)
Fixpoint all_chars (p : ascii -> bool) (s : string) : bool :=
  match s with
  | EmptyString => true
  | String c s' => p c && all_chars p s'
  end.

(** A lower-case hexadecimal digit. *)
Definition is_hex (c : ascii) : bool := Py.mem_char c "0123456789abcdef".

(** A world where the cache is switched off by the value 1, over an
    unreachable server. *)
Definition switched_off_world : World :=
  {| environ := {[ "ENABLE_EMAIL_CACHE" := "1" ]};
     redis_data := ∅; redis_faults := [true]; trace := [] |}.

(** A store that holds the result 7 for the call of [lookup] on 1. *)
Definition warm_world : World :=
  world_with {[ generate_cache_key "lookup" [PyInt 1] [] := ("7", 60%Z) ]} [].

(** The call that [_generate_summary] makes for a text, and what its model
    answers: the chat model below 4000 characters, the chain over the
    chunks of the text from there on. *)
Definition summary_call (self : AiService) (subject : option string)
    (text : string) : Event :=
  if (Py.len text <? 4000)%nat
  then ChatCompletion (summary_request subject text)
  else SummarizeChain (text_splitter self text).

Definition summary_answer (self : AiService) (subject : option string)
    (text : string) : option string :=
  if (Py.len text <? 4000)%nat
  then openai_client self (summary_request subject text)
  else summarize_chain self (text_splitter self text).

(** A text that neither begins nor ends with a blank. *)
Definition trimmed (s : string) : Prop :=
  (forall c, first_char s = Some c -> Py.isspace c = false) /\
  (forall c, last_char s = Some c -> Py.isspace c = false).

(** A text with none of its characters equal to [c]. *)
Definition without_char (c : ascii) (s : string) : Prop := Py.mem_char c s = false.

(** The characters that the extractors remove at the head of an item. *)
Definition item_head_chars : string := "-*0123456789. ".

(** What a well-formed extracted item or category looks like. *)
Definition clean_item (item : string) : Prop :=
  item <> EmptyString /\
  (forall c, first_char item = Some c -> Py.mem_char c item_head_chars = false) /\
  (forall c, last_char item = Some c -> Py.isspace c = false) /\
  without_char newline item.

Definition clean_category (category : string) : Prop :=
  category <> EmptyString /\ trimmed category /\ without_char "," category.

(** A variable that [os.getenv] finds with a non-empty value. *)
Definition provided (environ : gmap string string) (var : string) : Prop :=
  exists v, environ !! var = Some v /\ v <> EmptyString.

(** * Properties *)

(** ** Running computations *)

Lemma external_some {A} (ev : Event) (a : A) (w : World) :
  external ev (Some a) w = (Ok a, traced w ev).
Proof. reflexivity. Qed.

Lemma external_none {A} (ev : Event) (w : World) :
  external (A := A) ev None w = (Raise BackendError, traced w ev).
Proof. reflexivity. Qed.

(** ** The orchestrator on an empty body *)

Section EmptyBody.

Lemma email_get_absent (email : Email) (key : string) (default : option string) :
  ~ In key (List.map fst email) -> email_get email key default = default.
Proof.
  induction email as [|[k v] rest IH]; simpl; intros Hin; [reflexivity|].
  destruct (String.eqb_spec k key) as [->|Hne].
  - exfalso. apply Hin. now left.
  - apply IH. intros Hrest. apply Hin. now right.
Qed.

(** C1. When the body of the email is absent, [None] or the empty text,
    [analyze_email_content] returns the all-default dictionary (summary
    "No content to analyze", sentiment "neutral", empty lists, importance
    0.0, no sentiment score), and the world is left as it was: no model is
    called, whatever the models of the instance are. *)
Theorem analyze_email_content_empty_body
    (self : AiService) (email : Email) (w : World) :
  ~ In "body" (List.map fst email) \/
  email_get email "body" (Some EmptyString) = None \/
  email_get email "body" (Some EmptyString) = Some EmptyString ->
  exists r,
    analyze_email_content self email w = (Ok r, w) /\
    summary r = "No content to analyze" /\
    sentiment r = "neutral" /\
    sentiment_score r = None /\
    entities r = [] /\
    categories r = [] /\
    importance_score r = 0.0%float /\
    action_items r = [] /\
    topics r = [].
Proof.
  intros Hbody. exists no_content.
  split; [|repeat split].
  unfold analyze_email_content.
  destruct Hbody as [Habsent | [-> | ->]]; try reflexivity.
  now rewrite (email_get_absent email "body" _ Habsent).
Qed.

Lemma analyze_email_content_empty_body_witness :
  exists r,
    analyze_email_content failing_service
      [("id", Some "42"); ("subject", Some "Hello")] quiet_world
      = (Ok r, quiet_world) /\
    summary r = "No content to analyze" /\
    sentiment r = "neutral" /\
    sentiment_score r = None /\
    entities r = [] /\
    categories r = [] /\
    importance_score r = 0.0%float /\
    action_items r = [] /\
    topics r = [].
Proof.
  apply (analyze_email_content_empty_body failing_service
           [("id", Some "42"); ("subject", Some "Hello")] quiet_world).
  left. cbn. intros [Hid | [Hsubject | []]]; discriminate.
Defined.

End EmptyBody.

(** ** Sentiment normalization *)

Section Sentiment.

Local Open Scope float_scope.

(** No score is both above 0.7 and below 0.3. *)
Lemma above_07_not_below_03 (s : float) :
  (0.7 <? s) = true -> (s <? 0.3) = false.
Proof.
  assert (H7 : Prim2SF 0.7 = S754_finite false 6305039478318694 (-53))
    by (vm_compute; reflexivity).
  assert (H3 : Prim2SF 0.3 = S754_finite false 5404319552844595 (-54))
    by (vm_compute; reflexivity).
  rewrite !ltb_spec, H7, H3.
  destruct (Prim2SF s) as [sg|sg| |sg m e]; simpl.
  - discriminate.
  - destruct sg; [discriminate | reflexivity].
  - discriminate.
  - destruct sg; [discriminate|].
    unfold SFltb, SFcompare.
    destruct (Z.compare_spec (-53) e) as [<-|Hlt|Hgt]; intros H.
    + reflexivity.
    + destruct (Z.compare_spec e (-54)) as [->|Hlt'|Hgt']; [lia|lia|reflexivity].
    + discriminate.
Qed.

(** C3. Whatever label and score the classifier answers, the analyzer
    keeps the score and maps the label, read without regard to case:
    positive to positive, negative to negative, neutral above 0.7 to
    positive, neutral below 0.3 to negative, and everything else to
    neutral. *)
Theorem sentiment_normalization
    (self : AiService) (text : string) (w : World) (label : string) (score : float) :
  let shown := if (512 <? Py.len text)%nat then Py.slice_to 512 text else text in
  sentiment_model self shown = Some (label, score) ->
  exists out,
    _analyze_sentiment self text w = (Ok (out, score), traced w (SentimentModel shown)) /\
    (Py.lower label = "positive" -> out = "positive") /\
    (Py.lower label = "negative" -> out = "negative") /\
    (Py.lower label = "neutral" -> (0.7 <? score) = true -> out = "positive") /\
    (Py.lower label = "neutral" -> (score <? 0.3) = true -> out = "negative") /\
    (Py.lower label <> "positive" -> Py.lower label <> "negative" ->
     ~ (Py.lower label = "neutral" /\ ((0.7 <? score) = true \/ (score <? 0.3) = true)) ->
     out = "neutral").
Proof.
  intros shown Hmodel.
  unfold _analyze_sentiment. fold shown.
  unfold try_except, bind. rewrite Hmodel, external_some. cbn [fst snd].
  destruct (String.eqb_spec (Py.lower label) "positive") as [Hpos|Hpos].
  { exists "positive". cbn. repeat split; try reflexivity; intros; congruence. }
  destruct (String.eqb_spec (Py.lower label) "neutral") as [Hneu|Hneu].
  - destruct (String.eqb_spec (Py.lower label) "negative") as [Hneg|_]; [congruence|].
    destruct (0.7 <? score) eqn:Habove.
    + exists "positive". cbn. repeat split; try reflexivity; try congruence.
      * intros _ Hbelow. rewrite (above_07_not_below_03 _ Habove) in Hbelow. discriminate.
      * intros _ _ Hno. exfalso. apply Hno. auto.
    + destruct (score <? 0.3) eqn:Hbelow.
      * exists "negative". cbn. repeat split; try reflexivity; try congruence.
        intros _ _ Hno. exfalso. apply Hno. auto.
      * exists "neutral". cbn. repeat split; try reflexivity; congruence.
  - destruct (String.eqb_spec (Py.lower label) "negative") as [Hneg|Hneg].
    + exists "negative". cbn. repeat split; try reflexivity; intros; congruence.
    + exists "neutral". cbn. repeat split; try reflexivity; intros; congruence.
Qed.

Lemma sentiment_normalization_witness :
  exists out,
    _analyze_sentiment (classifier "neutral" 0.8) "Thanks a lot" quiet_world
      = (Ok (out, 0.8), traced quiet_world (SentimentModel "Thanks a lot")) /\
    (Py.lower "neutral" = "positive" -> out = "positive") /\
    (Py.lower "neutral" = "negative" -> out = "negative") /\
    (Py.lower "neutral" = "neutral" -> (0.7 <? 0.8) = true -> out = "positive") /\
    (Py.lower "neutral" = "neutral" -> (0.8 <? 0.3) = true -> out = "negative") /\
    (Py.lower "neutral" <> "positive" -> Py.lower "neutral" <> "negative" ->
     ~ (Py.lower "neutral" = "neutral" /\ ((0.7 <? 0.8) = true \/ (0.8 <? 0.3) = true)) ->
     out = "neutral").
Proof.
  apply (sentiment_normalization (classifier "neutral" 0.8) "Thanks a lot"
           quiet_world "neutral" 0.8).
  reflexivity.
Defined.

(** The four sample classifications, run through the analyzer. *)
Example sentiment_normalization_samples :
  fst (_analyze_sentiment (classifier "neutral" 0.8) "text" quiet_world)
    = Ok ("positive", 0.8) /\
  fst (_analyze_sentiment (classifier "neutral" 0.2) "text" quiet_world)
    = Ok ("negative", 0.2) /\
  fst (_analyze_sentiment (classifier "neutral" 0.5) "text" quiet_world)
    = Ok ("neutral", 0.5) /\
  fst (_analyze_sentiment (classifier "positive" 0.99) "text" quiet_world)
    = Ok ("positive", 0.99) /\
  fst (_analyze_sentiment (classifier "POSITIVE" 0.99) "text" quiet_world)
    = Ok ("positive", 0.99) /\
  fst (_analyze_sentiment failing_service "text" quiet_world)
    = Ok ("neutral", 0.5).
Proof. repeat split. Qed.

End Sentiment.

(** ** Text lemmas *)

Section Text.

Lemma append_String (c : ascii) (s t : string) :
  String c s +:+ t = String c (s +:+ t).
Proof. reflexivity. Qed.

Lemma append_Empty (t : string) : EmptyString +:+ t = t.
Proof. reflexivity. Qed.

Lemma length_append (s t : string) :
  String.length (s +:+ t) = (String.length s + String.length t)%nat.
Proof. induction s as [|c s IH]; [reflexivity|]. rewrite append_String. cbn. now rewrite IH. Qed.

Lemma append_assoc (s t u : string) : (s +:+ t) +:+ u = s +:+ (t +:+ u).
Proof. induction s as [|c s IH]; [reflexivity|]. rewrite !append_String. now rewrite IH. Qed.

Lemma prefix_app (p s : string) :
  String.prefix p s = true <-> exists rest, s = p +:+ rest.
Proof.
  revert s. induction p as [|c p IH]; intros s.
  - destruct s; split; eauto.
  - destruct s as [|d s]; cbn [String.prefix].
    + split; [discriminate | intros [rest Hrest]; discriminate].
    + destruct (Ascii.ascii_dec c d) as [->|Hne].
      * rewrite IH. split; intros [rest Hrest]; exists rest;
          rewrite append_String in *; congruence.
      * split; [discriminate|].
        intros [rest Hrest]. rewrite append_String in Hrest. congruence.
Qed.

Lemma contains_occurs (needle hay : string) :
  Py.contains needle hay = true <-> occurs_in needle hay.
Proof.
  induction hay as [|c hay IH]; cbn [Py.contains].
  - rewrite orb_false_r, prefix_app. split.
    + intros [rest Hrest]. exists EmptyString, rest. exact Hrest.
    + intros (before & after & Heq).
      destruct before; [eauto | discriminate].
  - rewrite orb_true_iff, IH, prefix_app. split.
    + intros [[rest Hrest] | (before & after & Heq)].
      * exists EmptyString, rest. exact Hrest.
      * exists (String c before), after. rewrite append_String. now rewrite Heq.
    + intros (before & after & Heq). destruct before as [|d before].
      * left. eauto.
      * right. exists before, after. rewrite append_String in Heq. congruence.
Qed.

Lemma any_mentions (keywords : list string) (s : string) :
  Py.any (fun word => Py.contains word s) keywords = true <-> mentions keywords s.
Proof.
  unfold Py.any, mentions. rewrite existsb_exists.
  split; intros (word & Hin & Hocc); exists word; split; auto;
    now apply contains_occurs.
Qed.

(** Lower-casing keeps every character in place, so it commutes with
    taking a prefix. *)
Lemma slice_to_lower (n : nat) (s : string) :
  Py.slice_to n (Py.lower s) = Py.lower (Py.slice_to n s).
Proof.
  revert s. induction n as [|n IH]; intros [|c s]; simpl; try reflexivity.
  now rewrite IH.
Qed.

End Text.

(** ** The importance score *)

Section Importance.

Local Open Scope float_scope.

Lemma count_person_or_org (entities : list Entity) :
  List.length
    (List.filter (fun e => existsb (String.eqb (ent_label e)) ["PERSON"; "ORG"])
       entities)
  = length (base.filter person_or_org entities).
Proof.
  induction entities as [|e rest IH]; [reflexivity|].
  cbn [List.filter]. rewrite filter_cons.
  destruct (decide (person_or_org e)) as [Hyes|Hno].
  - assert (Hb : existsb (String.eqb (ent_label e)) ["PERSON"; "ORG"] = true).
    { destruct Hyes as [Heq | Heq]; cbn; rewrite Heq; reflexivity. }
    rewrite Hb. cbn [List.length length]. now rewrite IH.
  - assert (Hb : existsb (String.eqb (ent_label e)) ["PERSON"; "ORG"] = false).
    { cbn. rewrite orb_false_r. apply orb_false_iff.
      split; apply String.eqb_neq; intros Heq; apply Hno; [left|right]; exact Heq. }
    rewrite Hb. exact IH.
Qed.

(** The sample email of the specification scores one unit in the last
    place above 0.6, not 0.6. *)
Lemma importance_sample_not_0_6 :
  _calculate_importance (Some "URGENT: deadline tomorrow") "please review" [] <> 0.6.
Proof.
  intros H. apply (f_equal Prim2SF) in H. vm_compute in H. discriminate.
Qed.

(** C2, as the code has it.  The score is a function of the subject, the
    body and the entities alone.  Starting from 0, it adds 0.4 when an
    urgency keyword occurs in the lower-cased subject, 0.2 when one occurs in
    the first 500 characters of the lower-cased body, 0.2 when an action
    keyword occurs in the first 1000 characters of the lower-cased body, and
    the smaller of 0.05 times the number of PERSON or ORG entities and 0.2;
    the sum is clamped between 0 and 1.  The windows are cut after
    lower-casing, as [text.lower()[:500]] and [text.lower()[:1000]] are.
    All sums are binary64 sums: the sample subject alone scores 0.4, with
    "please review" in the body the score is 0.4 + 0.2 = 0.6000000000000001,
    and five entities more bring it to 0.8, not 0.85. *)
Theorem importance_rule :
  (forall (subject text : string) (entities : list Entity),
     exists a b c : float,
       (mentions urgent_keywords (Py.lower subject) /\ a = 0.4
        \/ ~ mentions urgent_keywords (Py.lower subject) /\ a = 0) /\
       (mentions urgent_keywords (Py.slice_to 500 (Py.lower text)) /\ b = 0.2
        \/ ~ mentions urgent_keywords (Py.slice_to 500 (Py.lower text)) /\ b = 0) /\
       (mentions action_keywords (Py.slice_to 1000 (Py.lower text)) /\ c = 0.2
        \/ ~ mentions action_keywords (Py.slice_to 1000 (Py.lower text)) /\ c = 0) /\
       _calculate_importance (Some subject) text entities
       = py_min
           (py_max
              (0 + a + b + c
               + py_min (float_of_len (length (base.filter person_or_org entities)) * 0.05) 0.2)
              0)
           1) /\
  _calculate_importance (Some "URGENT: deadline tomorrow") "See you at the office." []
    = 0.4 /\
  _calculate_importance (Some "URGENT: deadline tomorrow") "please review" []
    = 0.6000000000000001 /\
  _calculate_importance (Some "URGENT: deadline tomorrow") "please review"
    (repeat (entity "PERSON") 3 ++ repeat (entity "ORG") 2)
    = 0.8 /\
  (0.8 =? 0.85) = false.
Proof.
  split; [|repeat split].
  intros subject text entities.
  unfold _calculate_importance.
  rewrite count_person_or_org.
  set (d := py_min _ 0.2).
  pose proof (any_mentions urgent_keywords (Py.lower subject)) as Ha.
  pose proof (any_mentions urgent_keywords (Py.slice_to 500 (Py.lower text))) as Hb.
  pose proof (any_mentions action_keywords (Py.slice_to 1000 (Py.lower text))) as Hc.
  set (ka := Py.any _ urgent_keywords) in Ha |- *.
  set (kb := Py.any _ urgent_keywords) in Hb |- *.
  set (kc := Py.any _ action_keywords) in Hc |- *.
  exists (if ka then 0.4 else 0), (if kb then 0.2 else 0), (if kc then 0.2 else 0).
  assert (Hcase : forall (k : bool) (P : Prop) (x : float),
             (k = true <-> P) ->
             P /\ (if k then x else 0) = x \/ ~ P /\ (if k then x else 0) = 0).
  { intros [|] P x HP; [left | right]; split; try reflexivity.
    - now apply HP.
    - intros HPyes. apply HP in HPyes. discriminate. }
  repeat split; try (apply Hcase; assumption).
  clearbody d. destruct ka, kb, kc; reflexivity.
Qed.

End Importance.

(** ** Cache keys *)

Section CacheKey.

Lemma ascii_compare_refl (c : ascii) : Ascii.compare c c = Eq.
Proof. unfold Ascii.compare. apply N.compare_refl. Qed.

Lemma ascii_compare_lt_trans (a b c : ascii) :
  Ascii.compare a b = Lt -> Ascii.compare b c = Lt -> Ascii.compare a c = Lt.
Proof.
  unfold Ascii.compare. rewrite !N.compare_lt_iff. apply N.lt_trans.
Qed.

Lemma string_compare_lt_trans (s1 s2 s3 : string) :
  String.compare s1 s2 = Lt -> String.compare s2 s3 = Lt -> String.compare s1 s3 = Lt.
Proof.
  revert s2 s3. induction s1 as [|a s1 IH]; intros [|b s2] [|c s3]; simpl;
    try discriminate; try reflexivity.
  destruct (Ascii.compare a b) eqn:Hab; try discriminate;
    destruct (Ascii.compare b c) eqn:Hbc; try discriminate; intros H12 H23.
  - apply Ascii.compare_eq_iff in Hab, Hbc. subst.
    rewrite ascii_compare_refl. eauto.
  - apply Ascii.compare_eq_iff in Hab. subst. now rewrite Hbc.
  - apply Ascii.compare_eq_iff in Hbc. subst. now rewrite Hab.
  - now rewrite (ascii_compare_lt_trans _ _ _ Hab Hbc).
Qed.

Lemma string_leb_trans (s1 s2 s3 : string) :
  String.leb s1 s2 = true -> String.leb s2 s3 = true -> String.leb s1 s3 = true.
Proof.
  intros H12 H23.
  destruct (String.compare s1 s2) eqn:C12.
  - apply String.compare_eq_iff in C12. subst. exact H23.
  - destruct (String.compare s2 s3) eqn:C23.
    + apply String.compare_eq_iff in C23. subst. exact H12.
    + unfold String.leb. now rewrite (string_compare_lt_trans _ _ _ C12 C23).
    + unfold String.leb in H23. rewrite C23 in H23. discriminate.
  - unfold String.leb in H12. rewrite C12 in H12. discriminate.
Qed.

Lemma insert_item_perm (x : string * pyval) (l : list (string * pyval)) :
  Permutation (x :: l) (insert_item x l).
Proof.
  induction l as [|y l IH]; simpl; [reflexivity|].
  destruct (String.leb (fst x) (fst y)); [reflexivity|].
  rewrite perm_swap. now apply perm_skip.
Qed.

Lemma sorted_perm (l : list (string * pyval)) : Permutation l (sorted l).
Proof.
  induction l as [|x l IH]; simpl; [reflexivity|].
  rewrite <- insert_item_perm. now apply perm_skip.
Qed.

Lemma insert_item_sorted (x : string * pyval) (l : list (string * pyval)) :
  StronglySorted key_le l -> StronglySorted key_le (insert_item x l).
Proof.
  induction 1 as [|y l Hsorted IH Hall]; simpl.
  - repeat constructor.
  - destruct (String.leb (fst x) (fst y)) eqn:Hxy.
    + constructor; [now constructor|].
      constructor; [exact Hxy|].
      eapply List.Forall_impl; [|exact Hall].
      intros z Hyz. unfold key_le in *. eapply string_leb_trans; eauto.
    + constructor; [exact IH|].
      apply (Permutation_Forall (insert_item_perm x l)).
      constructor; [|exact Hall].
      unfold key_le. destruct (String.leb_total (fst x) (fst y)) as [H|H]; congruence.
Qed.

Lemma sorted_sorted (l : list (string * pyval)) : StronglySorted key_le (sorted l).
Proof.
  induction l as [|x l IH]; simpl; [constructor | now apply insert_item_sorted].
Qed.

Lemma same_key_same_item (l : list (string * pyval)) (x y : string * pyval) :
  List.NoDup (List.map fst l) -> In x l -> In y l -> fst x = fst y -> x = y.
Proof.
  induction l as [|z l IH]; simpl; [tauto|].
  intros Hnodup Hx Hy Hkey. inversion Hnodup as [|k ks Hnotin Hrest]; subst.
  destruct Hx as [->|Hx], Hy as [->|Hy]; auto.
  - exfalso. apply Hnotin. rewrite Hkey. now apply List.in_map.
  - exfalso. apply Hnotin. rewrite <- Hkey. now apply List.in_map.
Qed.

(** Two orderings by key of the same items with distinct keys coincide. *)
Lemma sorted_unique (l1 l2 : list (string * pyval)) :
  List.NoDup (List.map fst l1) -> Permutation l1 l2 ->
  StronglySorted key_le l1 -> StronglySorted key_le l2 -> l1 = l2.
Proof.
  revert l2. induction l1 as [|a l1 IH]; intros l2 Hnodup Hperm H1 H2.
  - apply Permutation_nil in Hperm. now subst.
  - destruct l2 as [|b l2]; [apply Permutation_sym, Permutation_nil in Hperm; discriminate|].
    inversion H1 as [|? ? Hs1 Ha]; inversion H2 as [|? ? Hs2 Hb]; subst.
    assert (Hab : a = b).
    { assert (Hina : In a (b :: l2)) by (eapply Permutation_in; [exact Hperm | now left]).
      assert (Hinb : In b (a :: l1))
        by (eapply Permutation_in; [exact (Permutation_sym Hperm) | now left]).
      destruct Hina as [Heq|Hina]; [now symmetry|].
      destruct Hinb as [Heq|Hinb]; [exact Heq|].
      rewrite List.Forall_forall in Ha, Hb.
      apply (same_key_same_item (a :: l1)); auto; [now left | now right |].
      apply String.leb_antisym; [apply (Ha b Hinb) | apply (Hb a Hina)]. }
    subst b. f_equal.
    apply IH; auto.
    + simpl in Hnodup. now inversion Hnodup.
    + eapply Permutation_cons_inv. exact Hperm.
Qed.

Lemma sorted_permutation_invariant (kwargs1 kwargs2 : list (string * pyval)) :
  List.NoDup (List.map fst kwargs1) -> Permutation kwargs1 kwargs2 ->
  sorted kwargs1 = sorted kwargs2.
Proof.
  intros Hnodup Hperm. apply sorted_unique.
  - eapply Permutation_NoDup; [|exact Hnodup].
    apply Permutation_map, sorted_perm.
  - rewrite <- (sorted_perm kwargs1), <- (sorted_perm kwargs2). exact Hperm.
  - apply sorted_sorted.
  - apply sorted_sorted.
Qed.

(** C5. The key does not depend on the order in which the keyword arguments
    were supplied: two keyword dictionaries with the same items give the
    same key, for every function name and positional arguments.  For the
    function name "op" and positional arguments 1 and 2, the keywords a=1,
    b=2 give the same key in either order, and another key than a=1, b=3. *)
Theorem cache_key_ignores_keyword_order :
  (forall (func_name : string) (args : list pyval)
          (kwargs1 kwargs2 : list (string * pyval)),
     List.NoDup (List.map fst kwargs1) ->
     Permutation kwargs1 kwargs2 ->
     generate_cache_key func_name args kwargs1
     = generate_cache_key func_name args kwargs2) /\
  generate_cache_key "op" [PyInt 1; PyInt 2] [("a", PyInt 1); ("b", PyInt 2)]
  = generate_cache_key "op" [PyInt 1; PyInt 2] [("b", PyInt 2); ("a", PyInt 1)] /\
  generate_cache_key "op" [PyInt 1; PyInt 2] [("a", PyInt 1); ("b", PyInt 2)]
  <> generate_cache_key "op" [PyInt 1; PyInt 2] [("a", PyInt 1); ("b", PyInt 3)].
Proof.
  split; [|split].
  - intros func_name args kwargs1 kwargs2 Hnodup Hperm.
    unfold generate_cache_key, key_string.
    now rewrite (sorted_permutation_invariant kwargs1 kwargs2 Hnodup Hperm).
  - vm_compute. reflexivity.
  - vm_compute. discriminate.
Qed.

Lemma cache_key_ignores_keyword_order_witness :
  List.NoDup (List.map fst [("a", PyInt 1); ("b", PyInt 2)]) /\
  Permutation [("a", PyInt 1); ("b", PyInt 2)] [("b", PyInt 2); ("a", PyInt 1)] /\
  generate_cache_key "op" [PyInt 1; PyInt 2] [("a", PyInt 1); ("b", PyInt 2)]
  = generate_cache_key "op" [PyInt 1; PyInt 2] [("b", PyInt 2); ("a", PyInt 1)].
Proof.
  assert (Hnodup : List.NoDup (List.map fst [("a", PyInt 1); ("b", PyInt 2)])).
  { repeat constructor; simpl; intuition discriminate. }
  assert (Hperm : Permutation [("a", PyInt 1); ("b", PyInt 2)]
                    [("b", PyInt 2); ("a", PyInt 1)]) by apply perm_swap.
  split; [exact Hnodup | split; [exact Hperm|]].
  exact (proj1 cache_key_ignores_keyword_order "op" [PyInt 1; PyInt 2] _ _ Hnodup Hperm).
Defined.

End CacheKey.

(** ** The decorator *)

Section Decorator.

Context {V : Type} `{Json V}.

Variables (ttl : Z) (func_name : string)
  (func : list pyval -> list (string * pyval) -> M V)
  (args : list pyval) (kwargs : list (string * pyval)).

Lemma redis_get_reachable (key : string) (w : World) :
  reachable w ->
  redis_get key w = (Ok (fst <$> (redis_data w !! key)), after_command w).
Proof. unfold reachable, redis_get, redis_command. intros ->. reflexivity. Qed.

Lemma redis_command_unreachable {A} (run : World -> A * World) (w : World) :
  unreachable w -> redis_command run w = (Raise RedisError, after_command w).
Proof. unfold unreachable, redis_command. intros ->. reflexivity. Qed.

Lemma cache_enabled_run (w : World) :
  cache_enabled w ->
  cache ttl func_name func args kwargs w =
  (let cache_key := generate_cache_key func_name args kwargs in
   bind
     (try_except
        (bind (redis_get cache_key)
           (fun cached_value =>
              match cached_value with
              | Some text =>
                  if Py.nonempty text
                  then bind (deserialize_from_cache text) (fun obj => ret (Some obj))
                  else ret None
              | None => ret None
              end))
        [RedisError]
        (fun _ => bind (func args kwargs) (fun result => ret (Some result))))
     (fun looked_up =>
        match looked_up with
        | Some returned => ret returned
        | None =>
            bind (func args kwargs)
              (fun result =>
                 bind
                   (try_except
                      (bind (serialize_for_cache result)
                         (fun serialized => redis_setex cache_key ttl serialized))
                      [ValueError; RedisError]
                      (fun _ => ret tt))
                   (fun _ => ret result))
        end)) w.
Proof.
  unfold cache_enabled. intros Hon. unfold cache at 1.
  unfold bind at 1. rewrite Hon. reflexivity.
Qed.

(** C6. With the cache switched on, suppose the underlying function returns
    [v].  If the server is unreachable for the lookup, or the lookup misses
    and then either [v] does not serialize or the server is unreachable for
    the store, the wrapper returns [v], raises nothing, and leaves the store
    and the trace as the function left them. *)
Theorem cache_failures_are_not_fatal (w w2 : World) (v : V) :
  cache_enabled w ->
  (unreachable w /\ func args kwargs (after_command w) = (Ok v, w2))
  \/
  (reachable w /\
   (redis_data w !! generate_cache_key func_name args kwargs = None \/
    exists stored_ttl,
      redis_data w !! generate_cache_key func_name args kwargs
      = Some (EmptyString, stored_ttl)) /\
   func args kwargs (after_command w) = (Ok v, w2) /\
   (json_dumps v = None \/ unreachable w2)) ->
  exists w3,
    cache ttl func_name func args kwargs w = (Ok v, w3) /\
    redis_data w3 = redis_data w2 /\
    trace w3 = trace w2.
Proof.
  intros Hon Hcase. rewrite (cache_enabled_run w Hon). cbv zeta.
  destruct Hcase as [[Hdown Hfunc] | (Hup & Hmiss & Hfunc & Hstore)].
  - exists w2. unfold bind at 1, try_except.
    unfold bind at 1. unfold redis_get.
    rewrite (redis_command_unreachable _ w Hdown). cbn [existsb exn_eqb orb].
    unfold bind at 1. rewrite Hfunc. auto.
  - unfold bind at 1, try_except at 1. unfold bind at 1.
    rewrite (redis_get_reachable _ w Hup).
    assert (Hnone :
      match fst <$> (redis_data w !! generate_cache_key func_name args kwargs) with
      | Some text =>
          if Py.nonempty text
          then bind (deserialize_from_cache text) (fun obj => ret (Some obj))
          else ret None
      | None => ret (A := option V) None
      end = ret None).
    { destruct Hmiss as [-> | [stored_ttl ->]]; reflexivity. }
    rewrite Hnone. cbn [ret].
    unfold bind at 1. rewrite Hfunc.
    unfold bind at 1, try_except, serialize_for_cache.
    destruct Hstore as [Hdumps | Hdown].
    + rewrite Hdumps. exists w2. cbn. auto.
    + destruct (json_dumps v) as [text|].
      * unfold bind at 1, ret at 1, redis_setex.
        rewrite (redis_command_unreachable _ w2 Hdown). cbn.
        exists (after_command w2). auto.
      * exists w2. cbn. auto.
Qed.

(** C10. With the cache switched on and the server reachable, if the key of
    the call holds a non-empty text that [json.loads] rejects, the wrapper
    returns [None]; the outcome is the same whatever the underlying function
    is, which is therefore not called. *)
Theorem undecodable_hit_returns_none (w : World) (text : string) (stored_ttl : Z) :
  cache_enabled w ->
  reachable w ->
  redis_data w !! generate_cache_key func_name args kwargs = Some (text, stored_ttl) ->
  text <> EmptyString ->
  json_loads text = None ->
  cache ttl func_name func args kwargs w = (Ok py_none, after_command w) /\
  forall other : list pyval -> list (string * pyval) -> M V,
    cache ttl func_name other args kwargs w = cache ttl func_name func args kwargs w.
Proof.
  intros Hon Hup Hstored Hnonempty Hloads.
  assert (Hrun : forall f : list pyval -> list (string * pyval) -> M V,
             cache ttl func_name f args kwargs w = (Ok py_none, after_command w)).
  { intros f. unfold cache. unfold bind at 1. unfold cache_enabled in Hon. rewrite Hon.
    cbn [negb]. unfold bind at 1, try_except at 1. unfold bind at 1.
    rewrite (redis_get_reachable _ w Hup), Hstored. cbn [fmap option_fmap option_map fst].
    destruct text as [|c text]; [congruence|]. cbn [Py.nonempty].
    unfold deserialize_from_cache. rewrite Hloads. reflexivity. }
  split; [apply Hrun|]. intros other. now rewrite !Hrun.
Qed.

End Decorator.

(** ** The key of the decorated method *)

Section InstanceKey.

Lemma append_inv_head (p x y : string) : p +:+ x = p +:+ y -> x = y.
Proof.
  induction p as [|c p IH]; [auto|].
  rewrite !append_String. intros Heq. injection Heq as Heq. auto.
Qed.

Lemma list_ascii_of_append (s t : string) :
  list_ascii_of_string (s +:+ t) = list_ascii_of_string s ++ list_ascii_of_string t.
Proof.
  induction s as [|c s IH]; [reflexivity|].
  rewrite append_String. cbn. now rewrite IH.
Qed.

Lemma append_inv_tail (x y t : string) : x +:+ t = y +:+ t -> x = y.
Proof.
  intros Heq. apply (f_equal list_ascii_of_string) in Heq.
  rewrite !list_ascii_of_append in Heq. apply List.app_inv_tail in Heq.
  apply (f_equal string_of_list_ascii) in Heq.
  now rewrite !string_of_list_ascii_of_string in Heq.
Qed.

Lemma hex_read_back (n : N) :
  option_map N.of_hex_uint (HexadecimalString.NilZero.uint_of_string (Py.hex n)) = Some n.
Proof.
  unfold Py.hex. pose proof (HexadecimalN.Unsigned.of_to n) as Hn.
  destruct (N.to_hex_uint n) eqn:Hd;
    try (rewrite HexadecimalString.NilZero.usu by discriminate;
         cbn [option_map]; now rewrite Hn).
  rewrite HexadecimalString.NilZero.usu_nil. cbn [option_map]. now rewrite <- Hn.
Qed.

Lemma hex_inj (a b : N) : Py.hex a = Py.hex b -> a = b.
Proof.
  intros Heq. pose proof (hex_read_back a) as Ha. rewrite Heq, hex_read_back in Ha.
  now injection Ha.
Qed.

(** Before hashing, the keys of one email analysed through two instances
    differ as soon as the addresses of the instances do. *)
Lemma key_string_separates_instances (s1 s2 : AiService) (email : Email) :
  address s1 <> address s2 ->
  key_string "analyze_email_content" [py_self s1; py_email email] []
  <> key_string "analyze_email_content" [py_self s2; py_email email] [].
Proof.
  intros Hne Heq. apply Hne, hex_inj.
  unfold key_string, sorted, py_self in Heq.
  cbn [fold_left fold_right app PyVal.str PyVal.repr Py.join String.concat] in Heq.
  apply append_inv_head in Heq. apply append_inv_head in Heq.
  rewrite !append_assoc in Heq.
  do 3 apply append_inv_head in Heq.
  exact (append_inv_tail _ _ _ Heq).
Qed.

End InstanceKey.

Section DecoratorInstances.

Lemma cache_failures_are_not_fatal_witness :
  (exists w3,
     cache (H := toy_json) 300 "lookup" returns_seven [PyInt 1] [] (world_with ∅ [true])
     = (Ok (PyInt 7), w3) /\
     redis_data w3 = redis_data (after_command (world_with ∅ [true])) /\
     trace w3 = trace (after_command (world_with ∅ [true]))) /\
  (exists w3,
     cache (H := toy_json) 300 "lookup" returns_object [PyInt 1] [] (world_with ∅ [])
     = (Ok (PyObject "app.models.email.Email" 4096), w3) /\
     redis_data w3 = redis_data (after_command (world_with ∅ [])) /\
     trace w3 = trace (after_command (world_with ∅ []))) /\
  (exists w3,
     cache (H := toy_json) 300 "lookup" returns_seven [PyInt 1] []
       (world_with ∅ [false; true])
     = (Ok (PyInt 7), w3) /\
     redis_data w3 = redis_data (after_command (world_with ∅ [false; true])) /\
     trace w3 = trace (after_command (world_with ∅ [false; true]))).
Proof.
  split; [|split].
  - apply (@cache_failures_are_not_fatal pyval toy_json 300 "lookup" returns_seven
             [PyInt 1] [] (world_with ∅ [true]) (after_command (world_with ∅ [true]))
             (PyInt 7)).
    + reflexivity.
    + left. split; reflexivity.
  - apply (@cache_failures_are_not_fatal pyval toy_json 300 "lookup" returns_object
             [PyInt 1] [] (world_with ∅ []) (after_command (world_with ∅ []))
             (PyObject "app.models.email.Email" 4096)).
    + reflexivity.
    + right. repeat split; try reflexivity.
      * left. reflexivity.
      * left. reflexivity.
  - apply (@cache_failures_are_not_fatal pyval toy_json 300 "lookup" returns_seven
             [PyInt 1] [] (world_with ∅ [false; true])
             (after_command (world_with ∅ [false; true])) (PyInt 7)).
    + reflexivity.
    + right. repeat split; try reflexivity.
      * left. reflexivity.
      * right. reflexivity.
Defined.

(** The decorated analysis of the sample email returns [None] over a store
    whose entry for the call is not JSON. *)
Lemma undecodable_hit_returns_none_witness :
  cached_analyze_email_content (H := analysis_json) Some (service_at 4096)
    sample_email corrupted_world
  = (Ok None, after_command corrupted_world) /\
  forall other : list pyval -> list (string * pyval) -> M (option AnalysisResult),
    cache (H := analysis_json) 3600 "analyze_email_content" other
      [py_self (service_at 4096); py_email sample_email] [] corrupted_world
    = cached_analyze_email_content (H := analysis_json) Some (service_at 4096)
        sample_email corrupted_world.
Proof.
  apply (@undecodable_hit_returns_none (option AnalysisResult) analysis_json 3600
           "analyze_email_content"
           (fun _ _ =>
              bind (analyze_email_content (service_at 4096) sample_email)
                (fun result => ret (Some result)))
           [py_self (service_at 4096); py_email sample_email] [] corrupted_world
           "<html>502 Bad Gateway</html>" 3600%Z).
  - reflexivity.
  - reflexivity.
  - apply lookup_singleton_eq.
  - discriminate.
  - reflexivity.
Defined.

(** C4, at two instances of the service.  The key of the decorated method
    contains the address of [self]: before hashing, two instances at
    different addresses give different texts for every email; for the
    sample email the two keys differ, so the second request finds nothing
    stored and calls the six models again, where a second request through
    the same instance calls none. *)
Theorem cache_key_depends_on_instance :
  (forall (s1 s2 : AiService) (email : Email),
     address s1 <> address s2 ->
     key_string "analyze_email_content" [py_self s1; py_email email] []
     <> key_string "analyze_email_content" [py_self s2; py_email email] []) /\
  key_string "analyze_email_content"
    [py_self (service_at 0x7f3c5a1d2e50); py_email sample_email] []
  = "analyze_email_content_<app.services.ai_service.AiService object at 0x7f3c5a1d2e50>_{'id': '17', 'subject': 'Quarterly report', 'body': 'Please find the report attached.'}" /\
  analysis_key 0x7f3c5a1d2e50 <> analysis_key 0x7f3c5a1d2f10 /\
  length (trace (snd (two_requests 0x7f3c5a1d2e50 0x7f3c5a1d2e50))) = 6 /\
  length (trace (snd (two_requests 0x7f3c5a1d2e50 0x7f3c5a1d2f10))) = 12.
Proof.
  split; [exact key_string_separates_instances|].
  split; [|split; [|split]].
  - vm_compute. reflexivity.
  - vm_compute. discriminate.
  - vm_compute. reflexivity.
  - vm_compute. reflexivity.
Qed.

End DecoratorInstances.

(** ** Lines of a model answer *)

Section Lines.

Lemma split_nonempty (sep : ascii) (s : string) :
  exists piece rest, Py.split sep s = piece :: rest.
Proof.
  induction s as [|c s (piece & rest & IH)]; cbn [Py.split]; [eauto|].
  destruct (Ascii.eqb c sep); [eauto|]. rewrite IH. eauto.
Qed.

Lemma split_String (sep c : ascii) (s piece : string) (rest : list string) :
  Py.split sep s = piece :: rest ->
  Py.split sep (String c s) =
  if Ascii.eqb c sep then EmptyString :: piece :: rest else String c piece :: rest.
Proof. intros Hs. cbn [Py.split]. now rewrite Hs. Qed.

Lemma rstrip_String (p : ascii -> bool) (c : ascii) (s : string) :
  Py.rstrip_by p (String c s) =
  match Py.rstrip_by p s with
  | EmptyString => if p c then EmptyString else String c EmptyString
  | r => String c r
  end.
Proof. reflexivity. Qed.

(** Trimming on the left and on the right commute. *)
Lemma rstrip_lstrip (p : ascii -> bool) (s : string) :
  Py.rstrip_by p (Py.lstrip_by p s) = Py.lstrip_by p (Py.rstrip_by p s).
Proof.
  induction s as [|c s IH]; [reflexivity|].
  cbn [Py.lstrip_by]. rewrite rstrip_String.
  destruct (p c) eqn:Hc.
  - rewrite IH. destruct (Py.rstrip_by p s) as [|d r] eqn:Hr; [reflexivity|].
    cbn [Py.lstrip_by]. now rewrite Hc.
  - rewrite rstrip_String.
    destruct (Py.rstrip_by p s); cbn [Py.lstrip_by]; now rewrite Hc.
Qed.

Lemma strip_space (c : ascii) (s : string) :
  Py.isspace c = true -> Py.strip (String c s) = Py.strip s.
Proof. intros Hc. unfold Py.strip. cbn [Py.lstrip_by]. now rewrite Hc. Qed.

Lemma trimmed_lines_lstrip (s : string) :
  trimmed_lines (Py.split newline (Py.lstrip_by Py.isspace s))
  = trimmed_lines (Py.split newline s).
Proof.
  induction s as [|c s IH]; [reflexivity|].
  cbn [Py.lstrip_by]. destruct (Py.isspace c) eqn:Hc; [|reflexivity].
  rewrite IH. destruct (split_nonempty newline s) as (piece & rest & Hs).
  rewrite (split_String _ c _ _ _ Hs), Hs.
  destruct (Ascii.eqb c newline).
  - reflexivity.
  - unfold trimmed_lines. cbn [List.map]. now rewrite (strip_space c piece Hc).
Qed.

(** Trimming an answer on the right changes its first line at most by
    trailing blanks, and leaves the non-blank lines after it. *)
Lemma split_rstrip (s : string) :
  exists piece rest piece' rest',
    Py.split newline s = piece :: rest /\
    Py.split newline (Py.rstrip_by Py.isspace s) = piece' :: rest' /\
    Py.rstrip_by Py.isspace piece' = Py.rstrip_by Py.isspace piece /\
    trimmed_lines rest' = trimmed_lines rest.
Proof.
  induction s as [|c s (piece & rest & piece' & rest' & Hs & Hr & Hpiece & Hrest)].
  - exists EmptyString, [], EmptyString, []. auto.
  - rewrite (split_String _ c _ _ _ Hs), rstrip_String.
    assert (Hstrip : Py.strip piece' = Py.strip piece).
    { unfold Py.strip. now rewrite !rstrip_lstrip, Hpiece. }
    destruct (Py.rstrip_by Py.isspace s) as [|d r] eqn:Htail.
    + (* everything after [c] is blank *)
      cbn [Py.split] in Hr. injection Hr as <- <-.
      assert (Hblank : trimmed_lines (piece :: rest) = []).
      { unfold trimmed_lines in *. cbn [List.map List.filter].
        rewrite <- Hstrip, <- Hrest. reflexivity. }
      destruct (Ascii.eqb_spec c newline) as [->|Hc].
      * exists EmptyString, (piece :: rest), EmptyString, [].
        repeat split; auto.
      * destruct (Py.isspace c) eqn:Hspace.
        -- exists (String c piece), rest, EmptyString, [].
           repeat split; auto.
           rewrite rstrip_String, <- Hpiece, Hspace. reflexivity.
        -- exists (String c piece), rest, (String c EmptyString), [].
           repeat split; auto.
           ++ cbn [Py.split]. apply Ascii.eqb_neq in Hc. now rewrite Hc.
           ++ rewrite !rstrip_String, <- Hpiece. reflexivity.
    + rewrite (split_String _ c _ _ _ Hr).
      destruct (Ascii.eqb c newline).
      * exists EmptyString, (piece :: rest), EmptyString, (piece' :: rest').
        repeat split; auto.
        unfold trimmed_lines in *. cbn [List.map List.filter].
        now rewrite Hstrip, Hrest.
      * exists (String c piece), rest, (String c piece'), rest'.
        repeat split; auto.
        now rewrite !rstrip_String, Hpiece.
Qed.

Lemma trimmed_lines_rstrip (s : string) :
  trimmed_lines (Py.split newline (Py.rstrip_by Py.isspace s))
  = trimmed_lines (Py.split newline s).
Proof.
  destruct (split_rstrip s)
    as (piece & rest & piece' & rest' & -> & -> & Hpiece & Hrest).
  unfold trimmed_lines in *. cbn [List.map List.filter].
  assert (Hstrip : Py.strip piece' = Py.strip piece).
  { unfold Py.strip. now rewrite !rstrip_lstrip, Hpiece. }
  now rewrite Hstrip, Hrest.
Qed.

(** Trimming the whole answer first does not change its non-blank lines. *)
Lemma trimmed_lines_strip (s : string) :
  trimmed_lines (Py.split newline (Py.strip s)) = trimmed_lines (Py.split newline s).
Proof.
  unfold Py.strip. now rewrite trimmed_lines_rstrip, trimmed_lines_lstrip.
Qed.

Lemma bullet_or_numbered_nonempty (line : string) :
  bullet_or_numbered line = true -> Py.nonempty line = true.
Proof. destruct line; [discriminate | reflexivity]. Qed.

Lemma qualifying_trimmed_lines (lines : list string) :
  List.filter bullet_or_numbered (List.map Py.strip lines)
  = List.filter bullet_or_numbered (trimmed_lines lines).
Proof.
  unfold trimmed_lines. induction lines as [|line lines IH]; [reflexivity|].
  cbn [List.map List.filter].
  destruct (bullet_or_numbered (Py.strip line)) eqn:Hq.
  - rewrite (bullet_or_numbered_nonempty _ Hq). cbn [List.filter].
    now rewrite Hq, IH.
  - destruct (Py.nonempty (Py.strip line)); cbn [List.filter];
      [rewrite Hq|]; exact IH.
Qed.

Lemma item_lines_strip (answer : string) :
  item_lines (Py.strip answer) = item_lines answer.
Proof.
  unfold item_lines.
  now rewrite !qualifying_trimmed_lines, trimmed_lines_strip.
Qed.

Lemma prefix_char (x c : ascii) (s : string) :
  String.prefix (String x EmptyString) (String c s) = Ascii.eqb c x.
Proof.
  cbn [String.prefix]. destruct (Ascii.ascii_dec x c) as [->|Hne].
  - rewrite Ascii.eqb_refl. destruct s; reflexivity.
  - symmetry. apply Ascii.eqb_neq. congruence.
Qed.

(** The test the loops make on a trimmed line. *)
Lemma line_condition (line : string) :
  Py.nonempty line &&
  (Py.startswith line "-" || Py.startswith line "*" ||
   Py.any Py.isdigit (list_ascii_of_string (Py.slice_to 2 line)))
  = bullet_or_numbered line.
Proof.
  unfold Py.startswith, Py.any.
  destruct line as [|c [|d rest]]; [reflexivity| |];
    rewrite !prefix_char;
    cbn [Py.nonempty andb Py.slice_to list_ascii_of_string existsb bullet_or_numbered];
    destruct (Ascii.eqb c "-"), (Ascii.eqb c "*"), (Py.isdigit c);
    try reflexivity; cbn [orb]; destruct (Py.isdigit d); reflexivity.
Qed.

(** The loop of the extractors, started on the items gathered so far. *)
Lemma items_loop (lines items : list string) :
  fold_left
    (fun items line =>
       let line := Py.strip line in
       if Py.nonempty line &&
          (Py.startswith line "-" || Py.startswith line "*" ||
           Py.any Py.isdigit (list_ascii_of_string (Py.slice_to 2 line)))
       then
         let item := Py.lstrip "-*0123456789. " line in
         if Py.nonempty item then items ++ [item] else items
       else items)
    lines items
  = items ++
    List.filter Py.nonempty
      (List.map (Py.lstrip "-*0123456789. ")
         (List.filter bullet_or_numbered (List.map Py.strip lines))).
Proof.
  revert items. induction lines as [|line lines IH]; intros items.
  - cbn. now rewrite List.app_nil_r.
  - cbn [fold_left List.map List.filter]. cbv zeta. rewrite IH, line_condition.
    destruct (bullet_or_numbered (Py.strip line)); [|reflexivity].
    cbn [List.map List.filter].
    destruct (Py.nonempty (Py.lstrip "-*0123456789. " (Py.strip line)));
      [|reflexivity].
    now rewrite <- List.app_assoc.
Qed.


Lemma items_sample_run :
  fst (_extract_action_items
         (answering ("- Send the report" +:+ nl +:+ "2. Call client" +:+ nl +:+ "Not a bullet"))
         "Hi team" quiet_world)
  = Ok ["Send the report"; "Call client"] /\
  fst (_extract_topics
         (answering ("- Send the report" +:+ nl +:+ "2. Call client" +:+ nl +:+ "Not a bullet"))
         "Hi team" quiet_world)
  = Ok ["Send the report"; "Call client"].
Proof. split; vm_compute; reflexivity. Qed.

End Lines.

(** ** The categorizer *)

Section Categories.

Lemma map_filter_swap {A B} (f : A -> B) (p : B -> bool) (l : list A) :
  List.map f (List.filter (fun x => p (f x)) l) = List.filter p (List.map f l).
Proof.
  induction l as [|x l IH]; [reflexivity|].
  cbn [List.map List.filter]. destruct (p (f x)); cbn [List.map]; now rewrite IH.
Qed.

(** The model may answer with a label outside the taxonomy, and the
    categorizer returns it. *)
Lemma categorizer_outside_taxonomy :
  ~ (forall (self : AiService) (subject : option string) (text : string)
            (w w' : World) (cats : list string),
       _categorize_email self subject text w = (Ok cats, w') ->
       (forall c, In c cats -> In c taxonomy) \/ cats = ["Uncategorized"]).
Proof.
  intros Hclaim.
  destruct (Hclaim (answering "Newsletter, Urgent") (Some "Weekly digest")
              "Our news this week." quiet_world _ _ eq_refl) as [Hall | Hfail].
  - specialize (Hall "Newsletter" (or_introl eq_refl)).
    cbn in Hall. intuition discriminate.
  - discriminate.
Qed.

(** C8, as the code has it.  The categorizer returns the comma-separated
    items of the model answer, trimmed, without the empty ones and in their
    order, and exactly the label Uncategorized when the model fails.  It
    does not compare the items with the taxonomy: they belong to it whenever
    every item of the answer does. *)
Theorem categorizer_returns_answer_items
    (self : AiService) (subject : option string) (text : string) (w : World) :
  exists cats,
    _categorize_email self subject text w
    = (Ok cats, traced w (ChatCompletion (categorize_request subject text))) /\
    match openai_client self (categorize_request subject text) with
    | None => cats = ["Uncategorized"]
    | Some answer =>
        cats = List.filter Py.nonempty (List.map Py.strip (Py.split "," answer)) /\
        (forall c, In c cats <->
           c <> EmptyString /\
           exists piece, In piece (Py.split "," answer) /\ c = Py.strip piece) /\
        ((forall piece, In piece (Py.split "," answer) ->
            Py.strip piece = EmptyString \/ In (Py.strip piece) taxonomy) ->
         forall c, In c cats -> In c taxonomy)
    end.
Proof.
  unfold _categorize_email, try_except, bind, chat_completion.
  destruct (openai_client self (categorize_request subject text)) as [answer|].
  - rewrite external_some. unfold ret.
    rewrite (map_filter_swap Py.strip Py.nonempty).
    eexists. split; [reflexivity|].
    assert (Hin : forall c,
               In c (List.filter Py.nonempty (List.map Py.strip (Py.split "," answer))) <->
               c <> EmptyString /\
               exists piece, In piece (Py.split "," answer) /\ c = Py.strip piece).
    { intros c. rewrite List.filter_In, List.in_map_iff. split.
      - intros [(piece & <- & Hpiece) Hnonempty]. split; [|eauto].
        intros Hempty. rewrite Hempty in Hnonempty. discriminate.
      - intros [Hnonempty (piece & Hpiece & ->)]. split; [eauto|].
        destruct (Py.strip piece); [congruence | reflexivity]. }
    split; [reflexivity | split; [exact Hin|]].
    intros Hanswer c Hc. apply Hin in Hc. destruct Hc as [Hnonempty (piece & Hpiece & ->)].
    destruct (Hanswer piece Hpiece) as [Hempty | Hlabel]; [congruence | exact Hlabel].
  - rewrite external_none. cbn. eexists. split; reflexivity.
Qed.

(** An answer made of labels of the taxonomy is returned as such. *)
Lemma categorizer_returns_answer_items_witness :
  exists cats,
    _categorize_email (answering "Urgent, Finance ,") (Some "Invoice overdue")
      "Please pay the invoice." quiet_world
    = (Ok cats,
       traced quiet_world
         (ChatCompletion
            (categorize_request (Some "Invoice overdue") "Please pay the invoice."))) /\
    cats = ["Urgent"; "Finance"] /\
    forall c, In c cats -> In c taxonomy.
Proof.
  destruct (categorizer_returns_answer_items (answering "Urgent, Finance ,")
              (Some "Invoice overdue") "Please pay the invoice." quiet_world)
    as (cats & Hrun & Hcats & _ & Htaxonomy).
  exists cats. split; [exact Hrun|]. split; [exact Hcats|].
  apply Htaxonomy. intros piece Hpiece. cbn in Hpiece.
  destruct Hpiece as [<- | [<- | [<- | []]]]; cbn; auto 20.
Defined.

End Categories.

(** ** Invalidation *)

Section Invalidation.

Lemma star_matches_all (key : string) : token_match [TStar] key = true.
Proof.
  induction key as [|c key IH]; [reflexivity|].
  cbn [token_match] in *. cbn [Py.nonempty negb orb]. exact IH.
Qed.

Lemma literals_match_prefix (p key : string) :
  token_match (List.map TLit (list_ascii_of_string p) ++ [TStar]) key
  = String.prefix p key.
Proof.
  revert key. induction p as [|c p IH]; intros key.
  - cbn [list_ascii_of_string List.map app]. rewrite star_matches_all.
    destruct key; reflexivity.
  - cbn [list_ascii_of_string List.map app].
    destruct key as [|d key]; [reflexivity|].
    cbn [token_match String.prefix]. rewrite IH.
    destruct (Ascii.ascii_dec c d) as [->|Hne].
    + now rewrite Ascii.eqb_refl.
    + apply Ascii.eqb_neq in Hne. now rewrite Hne.
Qed.

Lemma tokens_plain (p : string) (fuel : nat) :
  plain p = true -> (String.length p < fuel)%nat ->
  tokens fuel (p +:+ "*") = List.map TLit (list_ascii_of_string p) ++ [TStar].
Proof.
  revert fuel. induction p as [|c p IH]; intros fuel Hplain Hfuel.
  - destruct fuel as [|fuel]; [cbn in Hfuel; lia|].
    rewrite append_Empty. cbn. destruct fuel; reflexivity.
  - destruct fuel as [|fuel]; [cbn in Hfuel; lia|].
    cbn [plain] in Hplain. apply andb_true_iff in Hplain. destruct Hplain as [Hc Hp].
    apply negb_true_iff in Hc. unfold special in Hc.
    repeat (apply orb_false_iff in Hc; destruct Hc as [Hc ?]).
    rewrite append_String. cbn [tokens list_ascii_of_string List.map app].
    repeat match goal with H : is_char _ c = false |- _ => rewrite H; clear H end.
    f_equal. apply IH; [exact Hp | cbn in Hfuel; lia].
Qed.

Lemma plain_append (s t : string) : plain (s +:+ t) = plain s && plain t.
Proof.
  induction s as [|c s IH]; [reflexivity|].
  rewrite append_String. cbn [plain]. now rewrite IH, andb_assoc.
Qed.

(** For a plain pattern, the glob that [invalidate_cache] sends selects the
    keys that begin with the namespace and the pattern. *)
Lemma glob_plain_prefix (pattern key : string) :
  plain pattern = true ->
  glob_match (cache_prefix +:+ pattern +:+ "*") key
  = String.prefix (cache_prefix +:+ pattern) key.
Proof.
  intros Hplain. unfold glob_match.
  rewrite <- append_assoc.
  assert (Hall : plain (cache_prefix +:+ pattern) = true)
    by (rewrite plain_append, Hplain; reflexivity).
  rewrite (tokens_plain _ _ Hall); [apply literals_match_prefix|].
  rewrite (length_append (cache_prefix +:+ pattern) "*").
  change (String.length "*") with 1%nat. lia.
Qed.

Lemma map_fst_fmap {A B} (l : list (A * B)) : List.map fst l = l.*1.
Proof. induction l as [|x l IH]; [reflexivity|]. cbn. now rewrite IH. Qed.

Lemma stored_keys_NoDup (w : World) : List.NoDup (stored_keys w).
Proof.
  unfold stored_keys. rewrite map_fst_fmap.
  apply NoDup_ListNoDup, NoDup_fst_map_to_list.
Qed.

Lemma stored_keys_In (w : World) (key : string) :
  In key (stored_keys w) <-> is_Some (redis_data w !! key).
Proof.
  unfold stored_keys. rewrite List.in_map_iff. split.
  - intros ([k v] & <- & Hin).
    apply list_elem_of_In, elem_of_map_to_list in Hin. cbn. eauto.
  - intros [v Hv]. exists (key, v). split; [reflexivity|].
    now apply list_elem_of_In, elem_of_map_to_list.
Qed.

(** Deleting distinct keys that are all present removes each of them and
    counts each of them. *)
Lemma delete_keys_present (keys : list string) :
  forall (n : Z) (data : gmap string (string * Z)),
    List.NoDup keys ->
    (forall key, In key keys -> is_Some (data !! key)) ->
    exists data',
      fold_left
        (fun '(n, d) key =>
           match d !! key with
           | Some _ => ((n + 1)%Z, delete key d)
           | None => (n, d)
           end)
        keys (n, data)
      = ((n + Z.of_nat (List.length keys))%Z, data') /\
      forall key,
        (In key keys -> data' !! key = None) /\
        (~ In key keys -> data' !! key = data !! key).
Proof.
  induction keys as [|k keys IH]; intros n data Hnodup Hpresent.
  - exists data. split; [cbn; f_equal; lia|]. intros key. split; [intros []|reflexivity].
  - inversion Hnodup as [|? ? Hnotin Hrest]; subst.
    destruct (Hpresent k (or_introl eq_refl)) as [v Hv].
    cbn [fold_left]. rewrite Hv.
    destruct (IH (n + 1)%Z (delete k data) Hrest) as (data' & Hrun & Hlookup).
    { intros key Hkey. rewrite lookup_delete_ne.
      - apply Hpresent. now right.
      - intros ->. contradiction. }
    exists data'. split.
    + rewrite Hrun. f_equal. cbn [List.length]. lia.
    + intros key. destruct (Hlookup key) as [Hin Hout]. split.
      * intros [->|Hkey]; [|now apply Hin].
        rewrite (Hout Hnotin). apply lookup_delete_eq.
      * intros Hnot. rewrite Hout; [|intros Hkey; apply Hnot; now right].
        apply lookup_delete_ne. intros ->. apply Hnot. now left.
Qed.

Lemma keys_with_prefix_In (pattern : string) (w : World) (key : string) :
  In key (keys_with_prefix pattern w) <->
  String.prefix (cache_prefix +:+ pattern) key = true /\ is_Some (redis_data w !! key).
Proof.
  unfold keys_with_prefix. rewrite List.filter_In, stored_keys_In. tauto.
Qed.

Lemma keys_with_prefix_NoDup (pattern : string) (w : World) :
  List.NoDup (keys_with_prefix pattern w).
Proof. apply List.NoDup_filter, stored_keys_NoDup. Qed.

(** What the KEYS command answers for a plain pattern. *)
Lemma redis_keys_plain (pattern : string) (w : World) :
  plain pattern = true ->
  List.filter (glob_match (cache_prefix +:+ pattern +:+ "*"))
    (List.map fst (map_to_list (redis_data (after_command w))))
  = keys_with_prefix pattern w.
Proof.
  intros Hplain. unfold keys_with_prefix, stored_keys. cbn [after_command with_redis redis_data].
  apply List.filter_ext. intros key. now apply glob_plain_prefix.
Qed.

(** A pattern with a star deletes keys that do not begin with it. *)
Lemma invalidate_cache_glob_pattern :
  ~ (forall (pattern : string) (w w' : World) (n : Z),
       invalidate_cache pattern w = (Ok n, w') ->
       forall key,
         is_Some (redis_data w !! key) ->
         (redis_data w' !! key = None <->
          String.prefix (cache_prefix +:+ pattern) key = true)).
Proof.
  intros Hclaim.
  pose (out := invalidate_cache "*1" (sample_store [])).
  assert (Hcount : fst out = Ok 2%Z) by (vm_compute; reflexivity).
  assert (Hgone : redis_data (snd out) !! "intellimail:cache:x:1" = None)
    by (vm_compute; reflexivity).
  assert (Hrun : invalidate_cache "*1" (sample_store []) = (Ok 2%Z, snd out)).
  { fold out. rewrite <- Hcount. apply surjective_pairing. }
  assert (Hstored : is_Some (redis_data (sample_store []) !! "intellimail:cache:x:1")).
  { eexists. vm_compute. reflexivity. }
  apply (Hclaim _ _ _ _ Hrun _ Hstored) in Hgone.
  clear -Hgone. vm_compute in Hgone. discriminate Hgone.
Qed.

(** C9, as the code has it.  For a pattern without star, question mark,
    bracket or backslash: when the server answers, [invalidate_cache]
    deletes the stored keys that begin with the namespace followed by the
    pattern, keeps the others, and returns how many it deleted, which is 0
    when none matched; when the server does not answer, it returns 0 and the
    store is as it was.  Over the keys x:1, x:2 and y:1 of the namespace,
    the pattern x deletes two entries and keeps y:1. *)
Theorem invalidate_cache_plain_pattern :
  (forall (pattern : string) (w : World),
     plain pattern = true ->
     exists n w',
       invalidate_cache pattern w = (Ok n, w') /\
       (store_answers pattern w ->
        n = Z.of_nat (List.length (keys_with_prefix pattern w)) /\
        forall key,
          redis_data w' !! key =
          if String.prefix (cache_prefix +:+ pattern) key then None
          else redis_data w !! key) /\
       (keys_with_prefix pattern w = [] -> n = 0%Z) /\
       (~ store_answers pattern w -> n = 0%Z /\ redis_data w' = redis_data w)) /\
  (exists w',
     invalidate_cache "x" (sample_store []) = (Ok 2%Z, w') /\
     redis_data w' !! "intellimail:cache:x:1" = None /\
     redis_data w' !! "intellimail:cache:x:2" = None /\
     redis_data w' !! "intellimail:cache:y:1" = Some ("3", 3600%Z)).
Proof.
  split.
  { intros pattern w Hplain.
    unfold invalidate_cache, try_except, bind, redis_keys.
    unfold redis_command at 1.
    destruct (hd false (redis_faults w)) eqn:Hw.
    { (* the listing is not answered *)
      exists 0%Z, (after_command w). split; [reflexivity|]. split; [|split].
      - intros [Hup _]. unfold reachable in Hup. congruence.
      - reflexivity.
      - intros _. split; reflexivity. }
    rewrite (redis_keys_plain pattern w Hplain).
    destruct (keys_with_prefix pattern w) as [|k ks] eqn:Hkeys.
    { (* nothing matches *)
      exists 0%Z, (after_command w). split; [reflexivity|]. split; [|split].
      - intros _. split; [reflexivity|].
        intros key. cbn [after_command with_redis redis_data].
        destruct (String.prefix _ key) eqn:Hprefix; [|reflexivity].
        destruct (redis_data w !! key) as [v|] eqn:Hv; [|reflexivity].
        assert (Hin : In key (keys_with_prefix pattern w))
          by (apply keys_with_prefix_In; eauto).
        rewrite Hkeys in Hin. destruct Hin.
      - reflexivity.
      - intros Hno. exfalso. apply Hno. split; [exact Hw | left; exact Hkeys]. }
    unfold ret at 1. unfold redis_delete, redis_command.
    destruct (hd false (redis_faults (after_command w))) eqn:Hw'.
    { (* the deletion is not answered *)
      exists 0%Z, (after_command (after_command w)).
      split; [reflexivity|]. split; [|split].
      - intros [_ [Hnone | Hup]]; [rewrite Hkeys in Hnone; discriminate|].
        unfold reachable in Hup. congruence.
      - discriminate.
      - intros _. split; reflexivity. }
    unfold delete_keys.
    destruct (delete_keys_present (k :: ks) 0 (redis_data (after_command (after_command w))))
      as (data' & Hrun & Hlookup).
    { rewrite <- Hkeys. apply keys_with_prefix_NoDup. }
    { intros key Hkey. rewrite <- Hkeys in Hkey.
      apply keys_with_prefix_In in Hkey. apply Hkey. }
    rewrite Hrun. eexists _, _. split; [reflexivity|].
    cbn [redis_data with_redis].
    split; [|split].
    - intros _. split; [reflexivity|]. intros key.
      destruct (Hlookup key) as [Hin Hout]. rewrite <- Hkeys in Hin, Hout.
      rewrite keys_with_prefix_In in Hin, Hout.
      cbn [after_command with_redis redis_data] in Hin, Hout.
      destruct (String.prefix _ key) eqn:Hprefix.
      + destruct (redis_data w !! key) as [v|] eqn:Hv.
        * apply Hin. split; [reflexivity|]. eauto.
        * rewrite Hout; [reflexivity|]. intros [_ [v Hsome]]. congruence.
      + apply Hout. intros [Hyes _]. discriminate.
    - discriminate.
    - intros Hno. exfalso. apply Hno. split; [exact Hw | right; exact Hw']. }
  eexists. split; [vm_compute; reflexivity|].
  split; [|split]; vm_compute; reflexivity.
Qed.

Lemma invalidate_cache_plain_pattern_witness :
  plain "x" = true /\
  exists n w',
    invalidate_cache "x" (sample_store []) = (Ok n, w') /\
    (store_answers "x" (sample_store []) ->
     n = Z.of_nat (List.length (keys_with_prefix "x" (sample_store []))) /\
     forall key,
       redis_data w' !! key =
       if String.prefix (cache_prefix +:+ "x") key then None
       else redis_data (sample_store []) !! key) /\
    (keys_with_prefix "x" (sample_store []) = [] -> n = 0%Z) /\
    (~ store_answers "x" (sample_store []) ->
     n = 0%Z /\ redis_data w' = redis_data (sample_store [])).
Proof.
  split; [reflexivity|].
  apply (proj1 invalidate_cache_plain_pattern "x" (sample_store [])).
  reflexivity.
Defined.

(** When the server is down, nothing is deleted and the answer is 0. *)
Example invalidate_cache_server_down :
  fst (invalidate_cache "x" (sample_store [true])) = Ok 0%Z /\
  redis_data (snd (invalidate_cache "x" (sample_store [true])))
  = redis_data (sample_store [true]) /\
  fst (invalidate_cache "x" (sample_store [false; true])) = Ok 0%Z /\
  redis_data (snd (invalidate_cache "x" (sample_store [false; true])))
  = redis_data (sample_store [false; true]).
Proof. repeat split; vm_compute; reflexivity. Qed.

End Invalidation.
(** * Further properties *)

(** ** The cache switch *)

Section Switch.

(** X1. The cache is on exactly when [ENABLE_EMAIL_CACHE] is unset or reads
    "true" in any letter case; every other value, such as "1" or "yes",
    switches it off.  Reading the switch changes nothing. *)
Theorem cache_switch_reading (w : World) :
  exists on : bool,
    is_cache_enabled w = (Ok on, w) /\
    (on = true <->
     environ w !! "ENABLE_EMAIL_CACHE" = None \/
     exists value,
       environ w !! "ENABLE_EMAIL_CACHE" = Some value /\ Py.lower value = "true").
Proof.
  unfold is_cache_enabled, bind, getenv, ret.
  destruct (environ w !! "ENABLE_EMAIL_CACHE") as [value|] eqn:Hvalue.
  - exists (String.eqb (Py.lower value) "true"). split; [reflexivity|].
    rewrite String.eqb_eq. split.
    + intros Hlower. right. eauto.
    + intros [Hnone | (value' & Hsome & Hlower)]; congruence.
  - exists true. split; [reflexivity|]. split; auto.
Qed.

Lemma cache_switch_run (w : World) : exists on, is_cache_enabled w = (Ok on, w).
Proof.
  unfold is_cache_enabled, bind, getenv, ret.
  destruct (environ w !! "ENABLE_EMAIL_CACHE"); eauto.
Qed.

Lemma cache_enabled_unset (w : World) :
  environ w !! "ENABLE_EMAIL_CACHE" = None -> cache_enabled w.
Proof.
  intros Hnone. unfold cache_enabled, is_cache_enabled, bind, getenv, ret.
  now rewrite Hnone.
Qed.

Lemma cache_enabled_environ (w w' : World) :
  environ w' = environ w -> cache_enabled w -> cache_enabled w'.
Proof.
  unfold cache_enabled, is_cache_enabled, bind, getenv, ret.
  intros Henv Heq. rewrite Henv. injection Heq as Hon. now rewrite Hon.
Qed.

End Switch.

(** ** The decorator, when nothing fails *)

Section DecoratorRuns.

Context {V : Type} `{Json V}.

Variables (ttl : Z) (func_name : string)
  (func : list pyval -> list (string * pyval) -> M V)
  (args : list pyval) (kwargs : list (string * pyval)).

(** X2. With the switch off, the wrapper is the wrapped function: it sends
    no command to the server and leaves the store alone. *)
Theorem cache_switched_off_is_transparent (w : World) (value : string) :
  environ w !! "ENABLE_EMAIL_CACHE" = Some value ->
  Py.lower value <> "true" ->
  cache ttl func_name func args kwargs w = func args kwargs w.
Proof.
  intros Hvalue Hoff. unfold cache, bind at 1, is_cache_enabled, bind, getenv, ret.
  rewrite Hvalue. apply String.eqb_neq in Hoff. now rewrite Hoff.
Qed.

(** The run of the wrapper on a miss that stores, and on a hit that
    decodes. *)
Lemma cache_miss_run (w w1 : World) (v : V) (text : string) :
  cache_enabled w ->
  reachable w ->
  redis_data w !! generate_cache_key func_name args kwargs = None ->
  func args kwargs (after_command w) = (Ok v, w1) ->
  json_dumps v = Some text ->
  reachable w1 ->
  cache ttl func_name func args kwargs w
  = (Ok v,
     stored (after_command w1)
       (<[generate_cache_key func_name args kwargs := (text, ttl)]> (redis_data w1))).
Proof.
  intros Hon Hup Hmiss Hfunc Hdumps Hup1.
  rewrite (cache_enabled_run ttl func_name func args kwargs w Hon). cbv zeta.
  unfold bind at 1, try_except at 1. unfold bind at 1.
  rewrite (redis_get_reachable _ w Hup), Hmiss. cbn [fmap option_fmap option_map ret].
  unfold bind at 1. rewrite Hfunc.
  unfold bind at 1, try_except, serialize_for_cache. rewrite Hdumps.
  unfold bind at 1, ret at 1, redis_setex, redis_command.
  unfold reachable in Hup1. rewrite Hup1. reflexivity.
Qed.

Lemma cache_hit_run (other : list pyval -> list (string * pyval) -> M V)
    (w : World) (text : string) (stored_ttl : Z) (v : V) :
  cache_enabled w ->
  reachable w ->
  redis_data w !! generate_cache_key func_name args kwargs = Some (text, stored_ttl) ->
  text <> EmptyString ->
  json_loads text = Some v ->
  cache ttl func_name other args kwargs w = (Ok v, after_command w).
Proof.
  intros Hon Hup Hstored Hnonempty Hloads.
  rewrite (cache_enabled_run ttl func_name other args kwargs w Hon). cbv zeta.
  unfold bind at 1, try_except at 1. unfold bind at 1.
  rewrite (redis_get_reachable _ w Hup), Hstored. cbn [fmap option_fmap option_map fst].
  destruct text as [|c text]; [congruence|]. cbn [Py.nonempty].
  unfold deserialize_from_cache. rewrite Hloads. reflexivity.
Qed.

(** X3. On a miss, with the server answering and a result that serializes,
    the wrapper returns the result of the function; afterwards the key of
    the call holds the serialized result with the time-to-live of the
    decorator, and every other key holds what the function left there. *)
Theorem cache_miss_stores_result (w w1 : World) (v : V) (text : string) :
  cache_enabled w ->
  reachable w ->
  redis_data w !! generate_cache_key func_name args kwargs = None ->
  func args kwargs (after_command w) = (Ok v, w1) ->
  json_dumps v = Some text ->
  reachable w1 ->
  exists w2,
    cache ttl func_name func args kwargs w = (Ok v, w2) /\
    redis_data w2 !! generate_cache_key func_name args kwargs = Some (text, ttl) /\
    (forall key,
       key <> generate_cache_key func_name args kwargs ->
       redis_data w2 !! key = redis_data w1 !! key) /\
    trace w2 = trace w1.
Proof.
  intros Hon Hup Hmiss Hfunc Hdumps Hup1.
  eexists. split; [exact (cache_miss_run w w1 v text Hon Hup Hmiss Hfunc Hdumps Hup1)|].
  cbn [stored with_redis redis_data trace after_command].
  split; [apply lookup_insert_eq|]. split; [|reflexivity].
  intros key Hother. apply lookup_insert_ne. congruence.
Qed.

(** X4. On a hit with text that decodes, the wrapper returns the decoded
    object whatever the wrapped function is, so without calling it; the
    store and the trace of calls stay as they were. *)
Theorem cache_hit_returns_stored (w : World) (text : string) (stored_ttl : Z) (v : V) :
  cache_enabled w ->
  reachable w ->
  redis_data w !! generate_cache_key func_name args kwargs = Some (text, stored_ttl) ->
  text <> EmptyString ->
  json_loads text = Some v ->
  forall other : list pyval -> list (string * pyval) -> M V,
    exists w',
      cache ttl func_name other args kwargs w = (Ok v, w') /\
      redis_data w' = redis_data w /\
      trace w' = trace w.
Proof.
  intros Hon Hup Hstored Hnonempty Hloads other.
  exists (after_command w).
  split; [exact (cache_hit_run other w text stored_ttl v Hon Hup Hstored Hnonempty Hloads)|].
  split; reflexivity.
Qed.

(** X5. Store, then fetch.  If the codec reads back what it writes for [v],
    and the function keeps the environment, then after a first call that
    missed and computed [v], a second call with the same arguments returns
    [v] without calling any function. *)
Theorem cache_round_trip (w w1 : World) (v : V) (text : string) :
  cache_enabled w ->
  redis_faults w = [] ->
  redis_data w !! generate_cache_key func_name args kwargs = None ->
  func args kwargs (after_command w) = (Ok v, w1) ->
  environ w1 = environ w ->
  redis_faults w1 = [] ->
  json_dumps v = Some text ->
  text <> EmptyString ->
  json_loads text = Some v ->
  exists w2,
    cache ttl func_name func args kwargs w = (Ok v, w2) /\
    forall other : list pyval -> list (string * pyval) -> M V,
      cache ttl func_name other args kwargs w2 = (Ok v, after_command w2).
Proof.
  intros Hon Hfaults Hmiss Hfunc Henv Hfaults1 Hdumps Hnonempty Hloads.
  eexists. split.
  - apply (cache_miss_run w w1 v text); auto.
    + unfold reachable. now rewrite Hfaults.
    + unfold reachable. now rewrite Hfaults1.
  - intros other. apply (cache_hit_run other _ text ttl v); auto.
    + apply (cache_enabled_environ w); [exact Henv | exact Hon].
    + unfold reachable, stored, after_command. cbn. now rewrite Hfaults1.
    + cbn. apply lookup_insert_eq.
Qed.

End DecoratorRuns.

Section DecoratorRunsInstances.

Lemma cache_switched_off_is_transparent_witness :
  cache (H := toy_json) 300 "lookup" returns_seven [PyInt 1] [] switched_off_world
  = returns_seven [PyInt 1] [] switched_off_world.
Proof.
  apply (@cache_switched_off_is_transparent pyval toy_json 300 "lookup" returns_seven
           [PyInt 1] [] switched_off_world "1").
  - reflexivity.
  - discriminate.
Defined.

Lemma cache_miss_stores_result_witness :
  exists w2,
    cache (H := toy_json) 300 "lookup" returns_seven [PyInt 1] [] (world_with ∅ [])
    = (Ok (PyInt 7), w2) /\
    redis_data w2 !! generate_cache_key "lookup" [PyInt 1] [] = Some ("7", 300%Z) /\
    (forall key,
       key <> generate_cache_key "lookup" [PyInt 1] [] ->
       redis_data w2 !! key = redis_data (after_command (world_with ∅ [])) !! key) /\
    trace w2 = trace (after_command (world_with ∅ [])).
Proof.
  apply (@cache_miss_stores_result pyval toy_json 300 "lookup" returns_seven
           [PyInt 1] [] (world_with ∅ []) (after_command (world_with ∅ []))
           (PyInt 7) "7"); reflexivity.
Defined.

Lemma cache_hit_returns_stored_witness :
  exists w',
    cache (H := toy_json) 300 "lookup" returns_object [PyInt 1] [] warm_world
    = (Ok (PyInt 7), w') /\
    redis_data w' = redis_data warm_world /\
    trace w' = trace warm_world.
Proof.
  apply (@cache_hit_returns_stored pyval toy_json 300 "lookup" [PyInt 1] []
           warm_world "7" 60%Z (PyInt 7)).
  - reflexivity.
  - reflexivity.
  - apply lookup_singleton_eq.
  - discriminate.
  - reflexivity.
Defined.

Lemma cache_round_trip_witness :
  exists w2,
    cache (H := toy_json) 300 "lookup" returns_seven [PyInt 1] [] (world_with ∅ [])
    = (Ok (PyInt 7), w2) /\
    forall other : list pyval -> list (string * pyval) -> M pyval,
      cache (H := toy_json) 300 "lookup" other [PyInt 1] [] w2
      = (Ok (PyInt 7), after_command w2).
Proof.
  apply (@cache_round_trip pyval toy_json 300 "lookup" returns_seven [PyInt 1] []
           (world_with ∅ []) (after_command (world_with ∅ [])) (PyInt 7) "7");
    try reflexivity.
  discriminate.
Defined.

End DecoratorRunsInstances.

(** ** The shape of cache keys *)

Section KeyShape.

Lemma le_bytes_length (n : nat) (x : Z) : List.length (MD5.le_bytes n x) = n.
Proof. revert x. induction n as [|n IH]; intros x; cbn; [reflexivity | now rewrite IH]. Qed.

Lemma le_bytes_range (n : nat) (x : Z) :
  List.Forall (fun b => (0 <= b < 256)%Z) (MD5.le_bytes n x).
Proof.
  revert x. induction n as [|n IH]; intros x; cbn; constructor; [|apply IH].
  apply Z.mod_pos_bound. lia.
Qed.

Lemma digest_bytes (msg : list Z) :
  List.length (MD5.digest msg) = 16%nat /\
  List.Forall (fun b => (0 <= b < 256)%Z) (MD5.digest msg).
Proof.
  unfold MD5.digest.
  destruct (fold_left MD5.process_block _ MD5.init) as [A B C D]. split.
  - rewrite !List.length_app, !le_bytes_length. reflexivity.
  - repeat (apply List.Forall_app; split); apply le_bytes_range.
Qed.

Lemma hex_digit_is_hex (n : N) : (n < 16)%N -> is_hex (Py.hex_digit n) = true.
Proof.
  intros Hn. rewrite <- (N2Nat.id n).
  assert (Hk : (N.to_nat n < 16)%nat) by lia.
  generalize dependent (N.to_nat n). clear Hn n. intros k Hk.
  do 16 (destruct k as [|k]; [reflexivity|]). lia.
Qed.

Lemma hex2_is_hex (b : Z) :
  (0 <= b < 256)%Z -> all_chars is_hex (Py.hex2 (Z.to_N b)) = true.
Proof.
  intros Hb. unfold Py.hex2. cbn [all_chars].
  rewrite !hex_digit_is_hex; [reflexivity| |].
  - apply N.mod_lt. discriminate.
  - apply N.Div0.div_lt_upper_bound. lia.
Qed.

Lemma all_chars_append (p : ascii -> bool) (s t : string) :
  all_chars p (s +:+ t) = all_chars p s && all_chars p t.
Proof.
  induction s as [|c s IH]; [reflexivity|].
  rewrite append_String. cbn [all_chars]. now rewrite IH, andb_assoc.
Qed.

Lemma hexdigest_shape (msg : list Z) :
  String.length (MD5.hexdigest msg) = 32%nat /\
  all_chars is_hex (MD5.hexdigest msg) = true.
Proof.
  unfold MD5.hexdigest. destruct (digest_bytes msg) as [Hlen Hrange].
  revert Hlen Hrange. generalize (MD5.digest msg) as bytes.
  assert (Hgen : forall bytes,
             List.Forall (fun b => (0 <= b < 256)%Z) bytes ->
             String.length
               (fold_right (fun b acc => Py.hex2 (Z.to_N b) +:+ acc) EmptyString bytes)
             = (2 * List.length bytes)%nat /\
             all_chars is_hex
               (fold_right (fun b acc => Py.hex2 (Z.to_N b) +:+ acc) EmptyString bytes)
             = true).
  { induction 1 as [|b bytes Hb Hrest [IHlen IHhex]]; [split; reflexivity|].
    cbn [fold_right List.length]. split.
    - rewrite length_append, IHlen. cbn. lia.
    - now rewrite all_chars_append, (hex2_is_hex b Hb), IHhex. }
  intros bytes Hlen Hrange. destruct (Hgen bytes Hrange) as [Hl Hh].
  split; [rewrite Hl, Hlen; reflexivity | exact Hh].
Qed.

Lemma hex_is_not_special (c : ascii) : is_hex c = true -> special c = false.
Proof.
  unfold is_hex. cbn [Py.mem_char]. rewrite !orb_true_iff, !Ascii.eqb_eq.
  intros H. repeat (destruct H as [H|H]); subst; try reflexivity; discriminate.
Qed.

Lemma hex_text_is_plain (s : string) : all_chars is_hex s = true -> plain s = true.
Proof.
  induction s as [|c s IH]; [reflexivity|]. cbn [all_chars plain].
  rewrite andb_true_iff. intros [Hc Hs]. now rewrite (hex_is_not_special c Hc), IH.
Qed.

(** X6. Every cache key is the namespace followed by 32 lower-case
    hexadecimal digits, whatever the function name and the arguments are; in
    particular it holds none of the characters that a KEYS pattern reads
    specially. *)
Theorem cache_key_shape (func_name : string) (args : list pyval)
    (kwargs : list (string * pyval)) :
  exists digest,
    generate_cache_key func_name args kwargs = "intellimail:cache:" +:+ digest /\
    String.length digest = 32%nat /\
    all_chars is_hex digest = true /\
    String.length (generate_cache_key func_name args kwargs) = 50%nat /\
    plain (generate_cache_key func_name args kwargs) = true.
Proof.
  unfold generate_cache_key.
  destruct (hexdigest_shape (Py.encode (key_string func_name args kwargs)))
    as [Hlen Hhex].
  eexists. split; [reflexivity|]. split; [exact Hlen|]. split; [exact Hhex|]. split.
  - rewrite length_append, Hlen. reflexivity.
  - rewrite plain_append, (hex_text_is_plain _ Hhex). reflexivity.
Qed.

End KeyShape.

(** ** Invalidation and the namespace *)

Section Namespace.

Lemma tokens_plain_head (p rest : string) (fuel : nat) :
  plain p = true ->
  tokens (String.length p + fuel) (p +:+ rest)
  = List.map TLit (list_ascii_of_string p) ++ tokens fuel rest.
Proof.
  induction p as [|c p IH]; intros Hplain; [reflexivity|].
  cbn [plain] in Hplain. apply andb_true_iff in Hplain. destruct Hplain as [Hc Hp].
  apply negb_true_iff in Hc. unfold special in Hc.
  repeat (apply orb_false_iff in Hc; destruct Hc as [Hc ?]).
  rewrite append_String. cbn [String.length Nat.add tokens list_ascii_of_string List.map app].
  repeat match goal with Hchar : is_char _ c = false |- _ => rewrite Hchar; clear Hchar end.
  f_equal. now apply IH.
Qed.

Lemma literals_need_prefix (p : string) (ts : list token) (key : string) :
  token_match (List.map TLit (list_ascii_of_string p) ++ ts) key = true ->
  String.prefix p key = true.
Proof.
  revert key. induction p as [|c p IH]; intros key.
  - destruct key; reflexivity.
  - cbn [list_ascii_of_string List.map app].
    destruct key as [|d key]; [discriminate|].
    cbn [token_match String.prefix]. rewrite andb_true_iff, Ascii.eqb_eq.
    intros [<- Hrest]. destruct (Ascii.ascii_dec c c); [now apply IH | congruence].
Qed.

(** A key selected by a glob that begins with the namespace begins with the
    namespace. *)
Lemma glob_in_namespace (rest key : string) :
  glob_match (cache_prefix +:+ rest) key = true -> String.prefix cache_prefix key = true.
Proof.
  unfold glob_match. rewrite length_append.
  rewrite (tokens_plain_head cache_prefix rest _ eq_refl).
  apply literals_need_prefix.
Qed.

Lemma delete_keys_outside (keys : list string) :
  forall (n : Z) (data : gmap string (string * Z)),
    exists n' data',
      fold_left
        (fun '(n, d) key =>
           match d !! key with
           | Some _ => ((n + 1)%Z, delete key d)
           | None => (n, d)
           end)
        keys (n, data)
      = (n', data') /\
      (n <= n')%Z /\
      forall key, ~ In key keys -> data' !! key = data !! key.
Proof.
  induction keys as [|k keys IH]; intros n data.
  - exists n, data. split; [reflexivity|]. split; [lia | auto].
  - cbn [fold_left]. destruct (data !! k) as [v|] eqn:Hk.
    + destruct (IH (n + 1)%Z (delete k data)) as (n' & data' & Hrun & Hle & Hout).
      exists n', data'. split; [exact Hrun|]. split; [lia|].
      intros key Hnot. rewrite Hout; [|intros Hin; apply Hnot; now right].
      apply lookup_delete_ne. intros ->. apply Hnot. now left.
    + destruct (IH n data) as (n' & data' & Hrun & Hle & Hout).
      exists n', data'. split; [exact Hrun|]. split; [exact Hle|].
      intros key Hnot. apply Hout. intros Hin. apply Hnot. now right.
Qed.

(** X7. Whatever the pattern is, special characters included,
    [invalidate_cache] raises nothing, returns a count that is not negative,
    and leaves every key that does not begin with the namespace as it
    was. *)
Theorem invalidate_cache_stays_in_namespace (pattern : string) (w : World) :
  exists (n : Z) (w' : World),
    invalidate_cache pattern w = (Ok n, w') /\
    (0 <= n)%Z /\
    forall key,
      String.prefix "intellimail:cache:" key = false ->
      redis_data w' !! key = redis_data w !! key.
Proof.
  unfold invalidate_cache, try_except, bind, redis_keys.
  unfold redis_command at 1.
  destruct (hd false (redis_faults w)) eqn:Hw.
  { exists 0%Z, (after_command w). split; [reflexivity|]. split; [lia | auto]. }
  set (keys := List.filter _ _).
  assert (Hkeys : forall key, In key keys -> String.prefix cache_prefix key = true).
  { intros key Hin. apply List.filter_In in Hin. destruct Hin as [_ Hglob].
    exact (glob_in_namespace _ _ Hglob). }
  destruct keys as [|k ks] eqn:Ekeys.
  { exists 0%Z, (after_command w). split; [reflexivity|]. split; [lia | auto]. }
  unfold ret at 1. unfold redis_delete, redis_command.
  destruct (hd false (redis_faults (after_command w))) eqn:Hw'.
  { exists 0%Z, (after_command (after_command w)). split; [reflexivity|]. split; [lia | auto]. }
  unfold delete_keys.
  destruct (delete_keys_outside (k :: ks) 0 (redis_data (after_command (after_command w))))
    as (n' & data' & Hrun & Hle & Hout).
  rewrite Hrun. eexists _, _. split; [reflexivity|]. split; [exact Hle|].
  intros key Hprefix. cbn [redis_data with_redis].
  rewrite Hout; [reflexivity|].
  intros Hin. apply Hkeys in Hin. unfold cache_prefix in Hin. congruence.
Qed.

(** What [invalidate_cache] does for a plain pattern when the server
    answers. *)
Lemma invalidate_cache_answered (pattern : string) (w : World) :
  plain pattern = true ->
  store_answers pattern w ->
  exists (n : Z) (w' : World),
    invalidate_cache pattern w = (Ok n, w') /\
    n = Z.of_nat (List.length (keys_with_prefix pattern w)) /\
    forall key,
      redis_data w' !! key =
      if String.prefix (cache_prefix +:+ pattern) key then None
      else redis_data w !! key.
Proof.
  intros Hplain [Hup Hnext].
  unfold invalidate_cache, try_except, bind, redis_keys.
  unfold redis_command at 1. unfold reachable in Hup. rewrite Hup.
  rewrite (redis_keys_plain pattern w Hplain).
  assert (Hgone : forall (key : string) (data' : gmap string (string * Z)),
             (In key (keys_with_prefix pattern w) -> data' !! key = None) ->
             (~ In key (keys_with_prefix pattern w) -> data' !! key = redis_data w !! key) ->
             data' !! key =
             if String.prefix (cache_prefix +:+ pattern) key then None
             else redis_data w !! key).
  { intros key data' Hin Hout. rewrite keys_with_prefix_In in Hin, Hout.
    destruct (String.prefix _ key) eqn:Hprefix.
    - destruct (redis_data w !! key) as [v|] eqn:Hv.
      + apply Hin. split; [reflexivity | eauto].
      + rewrite Hout; [reflexivity|]. intros [_ [v Hsome]]. discriminate.
    - apply Hout. intros [Hyes _]. discriminate. }
  destruct (keys_with_prefix pattern w) as [|k ks] eqn:Hkeys.
  { exists 0%Z, (after_command w). split; [reflexivity|]. split; [reflexivity|].
    intros key. apply Hgone; [intros [] | reflexivity]. }
  destruct Hnext as [Hnone | Hup']; [discriminate|].
  unfold ret at 1. unfold redis_delete, redis_command.
  unfold reachable in Hup'. rewrite Hup'. unfold delete_keys.
  destruct (delete_keys_present (k :: ks) 0 (redis_data (after_command (after_command w))))
    as (data' & Hrun & Hlookup).
  { rewrite <- Hkeys. apply keys_with_prefix_NoDup. }
  { intros key Hkey. rewrite <- Hkeys in Hkey.
    apply keys_with_prefix_In in Hkey. apply Hkey. }
  rewrite Hrun. eexists _, _. split; [reflexivity|]. split; [reflexivity|].
  intros key. cbn [redis_data with_redis].
  destruct (Hlookup key) as [Hin Hout]. apply Hgone; assumption.
Qed.

(** X8. Invalidating with the empty pattern, when the server answers,
    forgets every result the decorator stored: no key of any decorated call
    is left, the count is the number of keys of the namespace, and the keys
    outside the namespace stay. *)
Theorem invalidate_everything_forgets_all_results (w : World) :
  store_answers EmptyString w ->
  exists (n : Z) (w' : World),
    invalidate_cache EmptyString w = (Ok n, w') /\
    n = Z.of_nat (List.length (keys_with_prefix EmptyString w)) /\
    (forall (func_name : string) (args : list pyval) (kwargs : list (string * pyval)),
       redis_data w' !! generate_cache_key func_name args kwargs = None) /\
    (forall key,
       String.prefix "intellimail:cache:" key = false ->
       redis_data w' !! key = redis_data w !! key).
Proof.
  intros Hanswers.
  destruct (invalidate_cache_answered EmptyString w eq_refl Hanswers)
    as (n & w' & Hrun & Hcount & Hlookup).
  exists n, w'. split; [exact Hrun|]. split; [exact Hcount|]. split.
  - intros func_name args kwargs. rewrite Hlookup.
    assert (Hprefix : String.prefix (cache_prefix +:+ EmptyString)
                        (generate_cache_key func_name args kwargs) = true).
    { apply prefix_app. exists (MD5.hexdigest (Py.encode (key_string func_name args kwargs))).
      reflexivity. }
    now rewrite Hprefix.
  - intros key Hprefix. rewrite Hlookup.
    change (cache_prefix +:+ EmptyString) with "intellimail:cache:". now rewrite Hprefix.
Qed.

End Namespace.

Section NamespaceInstances.

Lemma invalidate_everything_forgets_all_results_witness :
  exists (n : Z) (w' : World),
    invalidate_cache EmptyString (sample_store []) = (Ok n, w') /\
    n = Z.of_nat (List.length (keys_with_prefix EmptyString (sample_store []))) /\
    (forall (func_name : string) (args : list pyval) (kwargs : list (string * pyval)),
       redis_data w' !! generate_cache_key func_name args kwargs = None) /\
    (forall key,
       String.prefix "intellimail:cache:" key = false ->
       redis_data w' !! key = redis_data (sample_store []) !! key).
Proof.
  apply (invalidate_everything_forgets_all_results (sample_store [])).
  split; [reflexivity | right; reflexivity].
Defined.

End NamespaceInstances.

(** ** Cache statistics *)

Section Stats.

(** X9. [get_cache_stats] raises nothing and changes no entry.  When the
    server answers, [total_keys] is the number of stored keys that begin
    with the namespace and the other fields are those of the server
    information, with their defaults when absent; when the server does not
    answer either command, the report is the unavailable one. *)
Theorem cache_stats_report (server_info : list (string * pyval))
    (error_text : string) (w : World) :
  exists (stats : list (string * pyval)) (w' : World),
    get_cache_stats server_info error_text w = (Ok stats, w') /\
    redis_data w' = redis_data w /\
    (reachable w /\ reachable (after_command w) ->
     stats =
     [ ("total_keys", PyInt (Z.of_nat (List.length (keys_with_prefix EmptyString w))));
       ("memory_used", dict_get server_info "used_memory_human" (PyStr "unknown"));
       ("hits", dict_get server_info "keyspace_hits" (PyInt 0));
       ("misses", dict_get server_info "keyspace_misses" (PyInt 0));
       ("uptime", dict_get server_info "uptime_in_seconds" (PyInt 0)) ]) /\
    (unreachable w \/ unreachable (after_command w) ->
     stats = [ ("error", PyStr error_text); ("status", PyStr "unavailable") ]).
Proof.
  unfold get_cache_stats, try_except, bind, redis_info, redis_keys.
  unfold redis_command at 1. unfold reachable, unreachable.
  destruct (hd false (redis_faults w)) eqn:Hw.
  { eexists _, _. split; [reflexivity|]. split; [reflexivity|]. split.
    - intros [Hup _]. discriminate.
    - reflexivity. }
  unfold redis_command.
  destruct (hd false (redis_faults (after_command w))) eqn:Hw'.
  { eexists _, _. split; [reflexivity|]. split; [reflexivity|]. split.
    - intros [_ Hup]. discriminate.
    - reflexivity. }
  eexists _, _. split; [reflexivity|]. split; [reflexivity|]. split.
  - intros _. unfold ret. do 3 f_equal.
    change "intellimail:cache:*" with (cache_prefix +:+ EmptyString +:+ "*").
    unfold keys_with_prefix, stored_keys. cbn [after_command with_redis redis_data].
    f_equal. f_equal. apply List.filter_ext. intros key.
    now apply glob_plain_prefix.
  - intros [Hdown | Hdown]; discriminate.
Qed.

End Stats.

(** ** Trimmed text *)

Section Trimmed.

Lemma lstrip_by_first (p : ascii -> bool) (s : string) (c : ascii) :
  first_char (Py.lstrip_by p s) = Some c -> p c = false.
Proof.
  induction s as [|d s IH]; [discriminate|].
  cbn [Py.lstrip_by]. destruct (p d) eqn:Hd; [exact IH|].
  cbn. intros [= <-]. exact Hd.
Qed.

Lemma rstrip_by_last (p : ascii -> bool) (s : string) (c : ascii) :
  last_char (Py.rstrip_by p s) = Some c -> p c = false.
Proof.
  induction s as [|d s IH]; [discriminate|].
  rewrite rstrip_String.
  destruct (Py.rstrip_by p s) as [|e r] eqn:Hr.
  - destruct (p d) eqn:Hd; [discriminate|]. cbn. intros [= <-]. exact Hd.
  - cbn [last_char]. exact IH.
Qed.

(** A trimmed text neither begins nor ends with a blank. *)
Lemma strip_first (s : string) (c : ascii) :
  first_char (Py.strip s) = Some c -> Py.isspace c = false.
Proof. unfold Py.strip. rewrite rstrip_lstrip. apply lstrip_by_first. Qed.

Lemma strip_last (s : string) (c : ascii) :
  last_char (Py.strip s) = Some c -> Py.isspace c = false.
Proof. unfold Py.strip. apply rstrip_by_last. Qed.

Lemma mem_char_lstrip_by (p : ascii -> bool) (c : ascii) (s : string) :
  Py.mem_char c (Py.lstrip_by p s) = true -> Py.mem_char c s = true.
Proof.
  induction s as [|d s IH]; [discriminate|].
  cbn [Py.lstrip_by]. destruct (p d); [|auto].
  intros Hin. cbn [Py.mem_char]. rewrite (IH Hin). apply orb_true_r.
Qed.

Lemma mem_char_rstrip_by (p : ascii -> bool) (c : ascii) (s : string) :
  Py.mem_char c (Py.rstrip_by p s) = true -> Py.mem_char c s = true.
Proof.
  induction s as [|d s IH]; [discriminate|].
  rewrite rstrip_String.
  destruct (Py.rstrip_by p s) as [|e r] eqn:Hr.
  - destruct (p d); [discriminate|]. cbn [Py.mem_char].
    rewrite orb_false_r. intros ->. reflexivity.
  - cbn [Py.mem_char] in *. rewrite !orb_true_iff. intros [Hd | Hin]; [now left|].
    right. apply IH. now rewrite orb_true_iff.
Qed.

Lemma mem_char_strip (c : ascii) (s : string) :
  Py.mem_char c (Py.strip s) = true -> Py.mem_char c s = true.
Proof. unfold Py.strip. intros Hin. now apply mem_char_rstrip_by, mem_char_lstrip_by in Hin. Qed.

(** No piece of a split holds the separator. *)
Lemma split_pieces_without_separator (sep : ascii) (s piece : string) :
  In piece (Py.split sep s) -> Py.mem_char sep piece = false.
Proof.
  revert piece. induction s as [|c s IH]; intros piece.
  - intros [<- | []]. reflexivity.
  - destruct (split_nonempty sep s) as (first & rest & Hs).
    rewrite (split_String sep c s first rest Hs).
    destruct (Ascii.eqb_spec c sep) as [->|Hne].
    + intros [<- | Hin]; [reflexivity|]. apply IH. now rewrite Hs.
    + intros [<- | Hin].
      * cbn [Py.mem_char]. rewrite (IH first) by (rewrite Hs; now left).
        apply not_eq_sym, Ascii.eqb_neq in Hne. now rewrite Hne.
      * apply IH. rewrite Hs. now right.
Qed.

Lemma slice_to_length (n : nat) (s : string) : (String.length (Py.slice_to n s) <= n)%nat.
Proof.
  revert s. induction n as [|n IH]; intros [|c s]; cbn; try lia.
  specialize (IH s). lia.
Qed.

Lemma slice_to_prefix (n : nat) (s : string) : String.prefix (Py.slice_to n s) s = true.
Proof.
  revert s. induction n as [|n IH]; intros [|c s]; cbn; try reflexivity.
  destruct (Ascii.ascii_dec c c); [apply IH | congruence].
Qed.

Lemma prefix_refl (s : string) : String.prefix s s = true.
Proof.
  induction s as [|c s IH]; [reflexivity|]. cbn.
  destruct (Ascii.ascii_dec c c); [exact IH | congruence].
Qed.

Lemma bounded_is_short_prefix (bound : nat) (text : string) :
  (String.length (bounded bound text) <= bound)%nat /\
  String.prefix (bounded bound text) text = true.
Proof.
  unfold bounded, Py.len. destruct (Nat.ltb_spec bound (String.length text)).
  - split; [apply slice_to_length | apply slice_to_prefix].
  - split; [lia | apply prefix_refl].
Qed.

End Trimmed.

(** ** The analyzers one by one *)

Section Analyzers.

Local Open Scope float_scope.

Lemma strip_trimmed (s : string) : trimmed (Py.strip s).
Proof. split; intros c; [apply strip_first | apply strip_last]. Qed.

Lemma summary_run (self : AiService) (subject : option string) (text : string)
    (w : World) :
  _generate_summary self subject text w
  = (Ok match summary_answer self subject text with
        | Some answer => Py.strip answer
        | None => "Could not generate summary."
        end,
     traced w (summary_call self subject text)).
Proof.
  unfold _generate_summary, summary_answer, summary_call, try_except, bind,
    chat_completion.
  destruct (Py.len text <? 4000)%nat.
  - destruct (openai_client self _); [rewrite external_some | rewrite external_none];
      reflexivity.
  - destruct (summarize_chain self _); [rewrite external_some | rewrite external_none];
      reflexivity.
Qed.

(** X10. [_generate_summary] makes exactly one call and raises nothing: the
    chat model for a text below 4000 characters, the summarize chain over
    the chunks of the text otherwise.  The summary is the trimmed answer,
    so it neither begins nor ends with a blank, or the fixed fallback text
    when the call fails. *)
Theorem summary_strategy (self : AiService) (subject : option string)
    (text : string) (w : World) :
  exists summary,
    _generate_summary self subject text w
    = (Ok summary, traced w (summary_call self subject text)) /\
    ((String.length text < 4000)%nat ->
     summary_call self subject text = ChatCompletion (summary_request subject text)) /\
    ((4000 <= String.length text)%nat ->
     summary_call self subject text = SummarizeChain (text_splitter self text)) /\
    (summary_answer self subject text = None ->
     summary = "Could not generate summary.") /\
    (forall answer,
       summary_answer self subject text = Some answer ->
       summary = Py.strip answer /\ trimmed summary).
Proof.
  rewrite summary_run. eexists. split; [reflexivity|].
  unfold summary_call, Py.len. split; [|split; [|split]].
  - intros Hshort. apply Nat.ltb_lt in Hshort. now rewrite Hshort.
  - intros Hlong. apply Nat.ltb_ge in Hlong. now rewrite Hlong.
  - intros ->. reflexivity.
  - intros answer ->. split; [reflexivity | apply strip_trimmed].
Qed.

Lemma sentiment_run (self : AiService) (text : string) (w : World) :
  exists label score,
    _analyze_sentiment self text w
    = (Ok (label, score), traced w (SentimentModel (bounded 512 text))) /\
    In label sentiment_labels /\
    (sentiment_model self (bounded 512 text) = None -> label = "neutral" /\ score = 0.5) /\
    (forall raw confidence,
       sentiment_model self (bounded 512 text) = Some (raw, confidence) ->
       score = confidence).
Proof.
  unfold _analyze_sentiment, bounded, try_except, bind.
  destruct (sentiment_model self _) as [[raw confidence]|].
  - rewrite external_some. cbn [fst snd].
    destruct (_ || _).
    + exists "positive", confidence. cbn. repeat split; auto; try discriminate.
      intros ? ? [= _ <-]. reflexivity.
    + destruct (_ || _).
      * exists "negative", confidence. cbn. repeat split; auto; try discriminate.
        intros ? ? [= _ <-]. reflexivity.
      * exists "neutral", confidence. cbn. repeat split; auto; try discriminate.
        intros ? ? [= _ <-]. reflexivity.
  - rewrite external_none. exists "neutral", 0.5. cbn. repeat split; auto; discriminate.
Qed.

(** X11. [_analyze_sentiment] raises nothing and makes one call, on a
    prefix of the text of at most 512 characters.  Whatever the classifier
    answers, the label returned is positive, negative or neutral; the score
    is the one of the classifier, and neutral with 0.5 when it fails. *)
Theorem sentiment_label_is_standard (self : AiService) (text : string) (w : World) :
  exists label score,
    _analyze_sentiment self text w
    = (Ok (label, score), traced w (SentimentModel (bounded 512 text))) /\
    In label sentiment_labels /\
    (String.length (bounded 512 text) <= 512)%nat /\
    String.prefix (bounded 512 text) text = true /\
    (sentiment_model self (bounded 512 text) = None -> label = "neutral" /\ score = 0.5) /\
    (forall raw confidence,
       sentiment_model self (bounded 512 text) = Some (raw, confidence) ->
       score = confidence).
Proof.
  destruct (sentiment_run self text w) as (label & score & Hrun & Hlabel & Hfail & Hscore).
  destruct (bounded_is_short_prefix 512 text) as [Hshort Hprefix].
  exists label, score. repeat split; auto; now apply Hfail.
Qed.

Lemma entity_copies (ents acc : list Entity) :
  fold_left
    (fun entities ent =>
       entities ++ [ {| ent_text := ent_text ent; ent_label := ent_label ent;
                        ent_start := ent_start ent; ent_end := ent_end ent |} ])
    ents acc
  = acc ++ ents.
Proof.
  revert acc. induction ents as [|[t l s e] ents IH]; intros acc.
  - cbn. now rewrite List.app_nil_r.
  - cbn [fold_left]. rewrite IH, <- List.app_assoc. reflexivity.
Qed.

Lemma entities_run (self : AiService) (text : string) (w : World) :
  _extract_entities self text w
  = (Ok match nlp self (Py.slice_to (N.to_nat 10000) text) with
        | Some ents => ents
        | None => []
        end,
     traced w (SpacyNlp (Py.slice_to (N.to_nat 10000) text))).
Proof.
  unfold _extract_entities, try_except, bind.
  destruct (nlp self _) as [ents|].
  - rewrite external_some. unfold ret. now rewrite entity_copies.
  - rewrite external_none. reflexivity.
Qed.

(** X12. [_extract_entities] raises nothing and makes one call, on a prefix
    of the text of at most 10000 characters.  It returns the entities of
    the model as they are and in their order, and no entity when the model
    fails. *)
Theorem entities_are_those_of_the_model (self : AiService) (text : string)
    (w : World) :
  let scanned := Py.slice_to (N.to_nat 10000) text in
  exists ents,
    _extract_entities self text w = (Ok ents, traced w (SpacyNlp scanned)) /\
    (String.length scanned <= N.to_nat 10000)%nat /\
    String.prefix scanned text = true /\
    (nlp self scanned = None -> ents = []) /\
    (forall found, nlp self scanned = Some found -> ents = found).
Proof.
  intros scanned. rewrite entities_run. fold scanned.
  eexists. split; [reflexivity|].
  split; [|split; [apply slice_to_prefix|]].
  - apply slice_to_length.
  - split; [intros ->; reflexivity | intros found ->; reflexivity].
Qed.

(** X13. [enhance_search_query] raises nothing and makes one call.  It
    returns the trimmed answer of the model, and the query exactly as it was
    given when the model fails. *)
Theorem search_query_falls_back_to_itself (self : AiService) (query : string)
    (w : World) :
  exists enhanced,
    enhance_search_query self query w
    = (Ok enhanced, traced w (ChatCompletion (search_request query))) /\
    (openai_client self (search_request query) = None -> enhanced = query) /\
    (forall answer,
       openai_client self (search_request query) = Some answer ->
       enhanced = Py.strip answer /\ trimmed enhanced).
Proof.
  unfold enhance_search_query, try_except, bind, chat_completion.
  destruct (openai_client self (search_request query)) as [answer|].
  - rewrite external_some. eexists. split; [reflexivity|].
    split; [discriminate|]. intros ? [= <-]. split; [reflexivity | apply strip_trimmed].
  - rewrite external_none. eexists. split; [reflexivity|].
    split; [reflexivity | discriminate].
Qed.

End Analyzers.

(** ** What the lists returned by the analyzers hold *)

Section Items.

Lemma categorize_run (self : AiService) (subject : option string) (text : string)
    (w : World) :
  _categorize_email self subject text w
  = (Ok match openai_client self (categorize_request subject text) with
        | Some answer =>
            List.filter Py.nonempty (List.map Py.strip (Py.split "," answer))
        | None => ["Uncategorized"]
        end,
     traced w (ChatCompletion (categorize_request subject text))).
Proof.
  unfold _categorize_email, try_except, bind, chat_completion.
  destruct (openai_client self (categorize_request subject text)) as [answer|].
  - rewrite external_some. unfold ret.
    now rewrite (map_filter_swap Py.strip Py.nonempty).
  - rewrite external_none. reflexivity.
Qed.

(** X14. [_categorize_email] raises nothing and makes one call.  Every
    category it returns is a non-empty text without a comma that neither
    begins nor ends with a blank, whatever the model answers; the number of
    categories is at most the number of comma-separated pieces of the
    answer. *)
Theorem categories_are_clean (self : AiService) (subject : option string)
    (text : string) (w : World) :
  exists cats,
    _categorize_email self subject text w
    = (Ok cats, traced w (ChatCompletion (categorize_request subject text))) /\
    (forall category, In category cats -> clean_category category) /\
    (forall answer,
       openai_client self (categorize_request subject text) = Some answer ->
       (List.length cats <= List.length (Py.split "," answer))%nat).
Proof.
  rewrite categorize_run. eexists. split; [reflexivity|].
  destruct (openai_client self (categorize_request subject text)) as [answer|].
  - split.
    + intros category Hin. apply List.filter_In in Hin. destruct Hin as [Hin Hnonempty].
      apply List.in_map_iff in Hin. destruct Hin as (piece & <- & Hpiece).
      split; [|split; [apply strip_trimmed|]].
      * intros Hempty. rewrite Hempty in Hnonempty. discriminate.
      * unfold without_char.
        destruct (Py.mem_char "," (Py.strip piece)) eqn:Hcomma; [|reflexivity].
        apply mem_char_strip in Hcomma.
        now rewrite (split_pieces_without_separator _ _ _ Hpiece) in Hcomma.
    + intros ? [= <-].
      etransitivity; [apply List.filter_length_le|]. now rewrite List.length_map.
  - split; [|discriminate].
    intros category [<- | []]. split; [discriminate|]. split; [|reflexivity].
    split; intros c [= <-]; reflexivity.
Qed.

Lemma action_items_run (self : AiService) (text : string) (w : World) :
  _extract_action_items self text w
  = (Ok match openai_client self (action_items_request text) with
        | Some answer => item_lines answer
        | None => []
        end,
     traced w (ChatCompletion (action_items_request text))).
Proof.
  unfold _extract_action_items, try_except, bind, chat_completion.
  destruct (openai_client self (action_items_request text)) as [answer|].
  - rewrite external_some. unfold ret. do 2 f_equal.
    rewrite <- (item_lines_strip answer). unfold item_lines.
    etransitivity; [apply items_loop | reflexivity].
  - rewrite external_none. reflexivity.
Qed.

Lemma topics_run (self : AiService) (text : string) (w : World) :
  _extract_topics self text w
  = (Ok match openai_client self (topics_request text) with
        | Some answer => item_lines answer
        | None => []
        end,
     traced w (ChatCompletion (topics_request text))).
Proof.
  unfold _extract_topics, try_except, bind, chat_completion.
  destruct (openai_client self (topics_request text)) as [answer|].
  - rewrite external_some. unfold ret. do 2 f_equal.
    rewrite <- (item_lines_strip answer). unfold item_lines.
    etransitivity; [apply items_loop | reflexivity].
  - rewrite external_none. reflexivity.
Qed.

(** What is left of a text after removing characters at its head ends as
    the text does. *)
Lemma last_char_lstrip_by (p : ascii -> bool) (s : string) :
  Py.lstrip_by p s <> EmptyString -> last_char (Py.lstrip_by p s) = last_char s.
Proof.
  induction s as [|c s IH]; [reflexivity|].
  cbn [Py.lstrip_by]. destruct (p c); [|reflexivity].
  intros Hleft. rewrite (IH Hleft).
  destruct s as [|d s]; [contradiction Hleft; reflexivity | reflexivity].
Qed.

Lemma item_lines_clean (answer item : string) :
  In item (item_lines answer) -> clean_item item.
Proof.
  unfold item_lines. intros Hin.
  apply List.filter_In in Hin. destruct Hin as [Hin Hnonempty].
  apply List.in_map_iff in Hin. destruct Hin as (trimmed_line & <- & Hin).
  apply List.filter_In in Hin. destruct Hin as [Hin _].
  apply List.in_map_iff in Hin. destruct Hin as (line & <- & Hline).
  assert (Hleft : Py.lstrip item_head_chars (Py.strip line) <> EmptyString).
  { intros Hempty. unfold item_head_chars in Hempty. rewrite Hempty in Hnonempty.
    discriminate. }
  fold item_head_chars. split; [exact Hleft|]. split; [|split].
  - intros c Hfirst. unfold Py.lstrip in Hfirst.
    exact (lstrip_by_first _ _ _ Hfirst).
  - intros c Hlast. unfold Py.lstrip in Hlast, Hleft.
    rewrite (last_char_lstrip_by _ _ Hleft) in Hlast. exact (strip_last _ _ Hlast).
  - unfold without_char.
    destruct (Py.mem_char newline (Py.lstrip item_head_chars (Py.strip line))) eqn:Hnl;
      [|reflexivity].
    unfold Py.lstrip in Hnl. apply mem_char_lstrip_by, mem_char_strip in Hnl.
    now rewrite (split_pieces_without_separator _ _ _ Hline) in Hnl.
Qed.

Lemma item_lines_count (answer : string) :
  (List.length (item_lines answer) <= List.length (Py.split newline answer))%nat.
Proof.
  unfold item_lines.
  etransitivity; [apply List.filter_length_le|]. rewrite List.length_map.
  etransitivity; [apply List.filter_length_le|]. now rewrite List.length_map.
Qed.

(** X15. The extractors raise nothing and make one call each.  Every action
    item and every topic they return is a non-empty text on one line, that
    does not begin with a dash, a star, a digit, a dot or a space and does
    not end with a blank; there are at most as many as the answer has
    lines. *)
Theorem extracted_items_are_clean (self : AiService) (text : string) (w : World) :
  exists items found_topics,
    _extract_action_items self text w
    = (Ok items, traced w (ChatCompletion (action_items_request text))) /\
    _extract_topics self text w
    = (Ok found_topics, traced w (ChatCompletion (topics_request text))) /\
    (forall item, In item items \/ In item found_topics -> clean_item item) /\
    (forall answer,
       openai_client self (action_items_request text) = Some answer ->
       (List.length items <= List.length (Py.split newline answer))%nat) /\
    (forall answer,
       openai_client self (topics_request text) = Some answer ->
       (List.length found_topics <= List.length (Py.split newline answer))%nat).
Proof.
  rewrite action_items_run, topics_run. eexists _, _.
  split; [reflexivity|]. split; [reflexivity|]. split; [|split].
  - intros item [Hin | Hin].
    + destruct (openai_client self (action_items_request text)); [|destruct Hin].
      exact (item_lines_clean _ _ Hin).
    + destruct (openai_client self (topics_request text)); [|destruct Hin].
      exact (item_lines_clean _ _ Hin).
  - intros answer ->. apply item_lines_count.
  - intros answer ->. apply item_lines_count.
Qed.

End Items.

(** ** The whole analysis *)

Section WholeAnalysis.

Local Open Scope float_scope.

(** The label and the score of a text do not depend on the world. *)
Lemma sentiment_value (self : AiService) (text : string) :
  exists label score,
    (forall w,
       _analyze_sentiment self text w
       = (Ok (label, score), traced w (SentimentModel (bounded 512 text)))) /\
    In label sentiment_labels.
Proof.
  unfold _analyze_sentiment, try_except, bind.
  change (if (512 <? Py.len text)%nat then Py.slice_to 512 text else text)
    with (bounded 512 text).
  destruct (sentiment_model self (bounded 512 text)) as [[raw confidence]|].
  - pose (positive :=
            String.eqb (Py.lower raw) "positive"
            || (String.eqb (Py.lower raw) "neutral" && (0.7 <? confidence))).
    pose (negative :=
            String.eqb (Py.lower raw) "negative"
            || (String.eqb (Py.lower raw) "neutral" && (confidence <? 0.3))).
    exists (if positive then "positive" else if negative then "negative" else "neutral"),
      confidence.
    split.
    + intros w. rewrite external_some. cbn [fst snd]. fold positive negative.
      destruct positive, negative; reflexivity.
    + destruct positive, negative; cbn; auto.
  - exists "neutral", 0.5. split; [intros w; now rewrite external_none|]. cbn. auto.
Qed.

(** The run of the analysis on a non-empty body. *)
Lemma analysis_run (self : AiService) (email : Email) (text : string) :
  email_get email "body" (Some EmptyString) = Some text ->
  text <> EmptyString ->
  let subject := email_get email "subject" (Some EmptyString) in
  exists label score,
    (forall w0,
       _analyze_sentiment self text w0
       = (Ok (label, score), traced w0 (SentimentModel (bounded 512 text)))) /\
    In label sentiment_labels /\
    forall w,
      analyze_email_content self email w
      = (Ok {| summary :=
                 match summary_answer self subject text with
                 | Some answer => Py.strip answer
                 | None => "Could not generate summary."
                 end;
               sentiment := label;
               sentiment_score := Some score;
               entities :=
                 match nlp self (Py.slice_to (N.to_nat 10000) text) with
                 | Some found => found
                 | None => []
                 end;
               categories :=
                 match openai_client self (categorize_request subject text) with
                 | Some answer =>
                     List.filter Py.nonempty (List.map Py.strip (Py.split "," answer))
                 | None => ["Uncategorized"]
                 end;
               importance_score :=
                 _calculate_importance subject text
                   match nlp self (Py.slice_to (N.to_nat 10000) text) with
                   | Some found => found
                   | None => []
                   end;
               action_items :=
                 match openai_client self (action_items_request text) with
                 | Some answer => item_lines answer
                 | None => []
                 end;
               topics :=
                 match openai_client self (topics_request text) with
                 | Some answer => item_lines answer
                 | None => []
                 end |},
         traced_all w (analysis_calls self subject text)).
Proof.
  intros Hbody Hnonempty subject.
  destruct (sentiment_value self text) as (label & score & Hsentiment & Hlabel).
  exists label, score. split; [exact Hsentiment|]. split; [exact Hlabel|].
  intros w. unfold analyze_email_content. rewrite Hbody. fold subject.
  destruct text as [|c text]; [congruence|].
  unfold bind.
  rewrite summary_run, Hsentiment, entities_run, categorize_run, action_items_run,
    topics_run.
  unfold ret. cbn [fst snd]. f_equal.
  unfold traced, traced_all, analysis_calls, summary_call.
  cbn [environ redis_data redis_faults trace]. f_equal.
  rewrite <- !List.app_assoc. reflexivity.
Qed.


Lemma slice_to_slice_to (n m : nat) (s : string) :
  (n <= m)%nat -> Py.slice_to n (Py.slice_to m s) = Py.slice_to n s.
Proof.
  revert m s. induction n as [|n IH]; intros m s Hle.
  - now destruct (Py.slice_to m s).
  - destruct m as [|m]; [lia|]. destruct s as [|c s]; [reflexivity|].
    cbn. rewrite IH; [reflexivity | lia].
Qed.

(** X17. The importance score depends on the subject and the body only
    through their lower-case forms, on the body only through its first 1000
    characters, and on the entities only through the number of those
    labelled PERSON or ORG. *)
Theorem importance_depends_on (subject1 subject2 text1 text2 : string)
    (entities1 entities2 : list Entity) :
  Py.lower subject1 = Py.lower subject2 ->
  Py.lower (Py.slice_to 1000 text1) = Py.lower (Py.slice_to 1000 text2) ->
  length (base.filter person_or_org entities1)
  = length (base.filter person_or_org entities2) ->
  _calculate_importance (Some subject1) text1 entities1
  = _calculate_importance (Some subject2) text2 entities2.
Proof.
  intros Hsubject Htext Hcount. unfold _calculate_importance.
  rewrite !count_person_or_org, Hcount, Hsubject.
  assert (H500 : Py.slice_to 500 (Py.lower text1) = Py.slice_to 500 (Py.lower text2)).
  { rewrite <- (slice_to_slice_to 500 1000 (Py.lower text1)) by lia.
    rewrite <- (slice_to_slice_to 500 1000 (Py.lower text2)) by lia.
    now rewrite (slice_to_lower 1000 text1), (slice_to_lower 1000 text2), Htext. }
  rewrite H500, (slice_to_lower 1000 text1), (slice_to_lower 1000 text2), Htext.
  reflexivity.
Qed.

End WholeAnalysis.

Section WholeAnalysisInstances.


Lemma importance_depends_on_witness :
  _calculate_importance (Some "URGENT: Budget") "PLEASE REVIEW the figures"
    [entity "PERSON"; entity "DATE"]
  = _calculate_importance (Some "urgent: budget") "please review the figures"
      [entity "ORG"].
Proof.
  apply (importance_depends_on "URGENT: Budget" "urgent: budget"
           "PLEASE REVIEW the figures" "please review the figures"
           [entity "PERSON"; entity "DATE"] [entity "ORG"]); reflexivity.
Defined.

End WholeAnalysisInstances.

(** ** The decorated analysis *)

Section FreshResult.

Context {V : Type} `{Json V}.

(** When the lookup brings back no text, the wrapper returns what the
    wrapped function returns. *)
Lemma cache_without_hit (ttl : Z) (func_name : string)
    (func : list pyval -> list (string * pyval) -> M V)
    (args : list pyval) (kwargs : list (string * pyval)) (v : V) (w : World) :
  (forall w0, exists w1, func args kwargs w0 = (Ok v, w1)) ->
  (cache_enabled w -> reachable w ->
   forall text stored_ttl,
     redis_data w !! generate_cache_key func_name args kwargs = Some (text, stored_ttl) ->
     text = EmptyString) ->
  exists w', cache ttl func_name func args kwargs w = (Ok v, w').
Proof.
  intros Hfunc Hnothing. unfold cache. unfold bind at 1.
  destruct (cache_switch_run w) as (on & Hon). rewrite Hon.
  destruct on; cbn [negb]; [|apply Hfunc].
  assert (Hstore :
    forall w0,
      exists w',
        (do_ try_except
               (do serialized <- serialize_for_cache v;
                redis_setex (generate_cache_key func_name args kwargs) ttl serialized)
               [ValueError; RedisError] (fun _ => ret tt);
         ret v) w0 = (Ok v, w')).
  { intros w0. unfold bind at 1, try_except, serialize_for_cache.
    destruct (json_dumps v); [|cbn; eauto].
    unfold bind at 1, ret at 1, redis_setex, redis_command.
    destruct (hd false (redis_faults w0)); cbn; eauto. }
  unfold bind at 1, try_except at 1. unfold bind at 1. unfold redis_get, redis_command.
  destruct (hd false (redis_faults w)) eqn:Hup.
  - cbn [existsb exn_eqb orb]. unfold bind at 1.
    destruct (Hfunc (after_command w)) as (w1 & ->). cbn. eauto.
  - cbn [after_command with_redis redis_data].
    destruct (redis_data w !! generate_cache_key func_name args kwargs)
      as [[text stored_ttl]|] eqn:Hlookup; cbn [fmap option_fmap option_map fst].
    + rewrite (Hnothing Hon Hup text stored_ttl eq_refl). cbn [Py.nonempty ret].
      unfold bind at 1.
      destruct (Hfunc (after_command w)) as (w1 & ->). apply Hstore.
    + cbn [ret]. unfold bind at 1.
      destruct (Hfunc (after_command w)) as (w1 & ->). apply Hstore.
Qed.

(** The analysis returns one record, the same from every world. *)
Lemma analysis_value (self : AiService) (email : Email) :
  exists r, forall w, exists w', analyze_email_content self email w = (Ok r, w').
Proof.
  destruct (email_get email "body" (Some EmptyString)) as [[|c text]|] eqn:Hbody.
  - eexists. intros w. unfold analyze_email_content. rewrite Hbody. cbn. eauto.
  - destruct (analysis_run self email (String c text) Hbody)
      as (label & score & _ & _ & Hrun); [discriminate|].
    eexists. intros w. rewrite Hrun. eauto.
  - eexists. intros w. unfold analyze_email_content. rewrite Hbody. cbn. eauto.
Qed.

(** X18. When the lookup of the decorated [analyze_email_content] brings
    back no stored text, because the cache is switched off, the server does
    not answer, or the key of the call holds nothing or the empty text, the
    call raises nothing and returns the record that the method itself
    computes for this service and this email, whether or not the record can
    be serialized and stored afterwards. *)
Theorem decorated_analysis_returns_fresh_result (to_py : AnalysisResult -> V)
    (self : AiService) (email : Email) (w : World) :
  (cache_enabled w -> reachable w ->
   forall text stored_ttl,
     redis_data w
       !! generate_cache_key "analyze_email_content" [py_self self; py_email email] []
     = Some (text, stored_ttl) ->
     text = EmptyString) ->
  exists r w',
    (forall w0, fst (analyze_email_content self email w0) = Ok r) /\
    cached_analyze_email_content to_py self email w = (Ok (to_py r), w').
Proof.
  intros Hnothing.
  destruct (analysis_value self email) as (r & Hr).
  destruct (cache_without_hit 3600 "analyze_email_content"
              (fun _ _ => do result <- analyze_email_content self email; ret (to_py result))
              [py_self self; py_email email] [] (to_py r) w) as (w' & Hrun).
  - intros w0. unfold bind. destruct (Hr w0) as (w1 & ->). cbn. eauto.
  - exact Hnothing.
  - exists r, w'. split; [|exact Hrun].
    intros w0. destruct (Hr w0) as (w1 & ->). reflexivity.
Qed.

End FreshResult.

Section FreshResultInstances.

Lemma decorated_analysis_returns_fresh_result_witness :
  exists r w',
    (forall w0, fst (analyze_email_content (service_at 4096) sample_email w0) = Ok r) /\
    cached_analyze_email_content (H := analysis_json) Some (service_at 4096) sample_email
      (world_with ∅ [true])
    = (Ok (Some r), w').
Proof.
  apply (@decorated_analysis_returns_fresh_result (option AnalysisResult) analysis_json
           Some (service_at 4096) sample_email (world_with ∅ [true])).
  intros _ Hup. discriminate Hup.
Defined.

End FreshResultInstances.

(** ** The helpers of [app.py] *)

Section AppHelpers.

Lemma lstrip_by_split (p : ascii -> bool) (s : string) :
  exists before, s = before +:+ Py.lstrip_by p s /\ all_chars p before = true.
Proof.
  induction s as [|c s (before & Heq & Hall)].
  - exists EmptyString. split; reflexivity.
  - cbn [Py.lstrip_by]. destruct (p c) eqn:Hc.
    + exists (String c before). rewrite append_String, <- Heq.
      split; [reflexivity|]. cbn [all_chars]. now rewrite Hc, Hall.
    + exists EmptyString. split; reflexivity.
Qed.

Lemma rstrip_by_split (p : ascii -> bool) (s : string) :
  exists after, s = Py.rstrip_by p s +:+ after /\ all_chars p after = true.
Proof.
  induction s as [|c s (after & Heq & Hall)].
  - exists EmptyString. split; reflexivity.
  - rewrite rstrip_String. destruct (Py.rstrip_by p s) as [|d r] eqn:Hr.
    + rewrite append_Empty in Heq. subst after.
      destruct (p c) eqn:Hc.
      * exists (String c s). split; [reflexivity|]. cbn [all_chars]. now rewrite Hc, Hall.
      * exists s. split; [reflexivity | exact Hall].
    + exists after. rewrite append_String, <- Heq. split; [reflexivity | exact Hall].
Qed.

Lemma strip_split (s : string) :
  exists before after,
    s = before +:+ Py.strip s +:+ after /\
    all_chars Py.isspace before = true /\
    all_chars Py.isspace after = true.
Proof.
  destruct (lstrip_by_split Py.isspace s) as (before & Hbefore & Hb).
  destruct (rstrip_by_split Py.isspace (Py.lstrip_by Py.isspace s)) as (after & Hafter & Ha).
  exists before, after. unfold Py.strip. rewrite <- Hafter. auto.
Qed.

(** X19. [analyze_sentiment] of [app.py] has no fallback: an exception of
    the client is the exception of the call.  When the client answers, the
    label is one of the three standard ones; it is positive exactly when
    the word positive occurs in the answer, read without surrounding
    blanks and in lower case, and negative exactly when the word negative
    occurs there and positive does not: positive wins when both occur. *)
Theorem app_sentiment_label (client : App.Client) (text : string) :
  match client (App.sentiment_request text) with
  | Raise e => App.analyze_sentiment client text = Raise e
  | Ok content =>
      let said := Py.lower (Py.strip content) in
      exists label,
        App.analyze_sentiment client text = Ok label /\
        In label sentiment_labels /\
        (label = "positive" <-> occurs_in "positive" said) /\
        (label = "negative" <->
           occurs_in "negative" said /\ ~ occurs_in "positive" said) /\
        (label = "neutral" <->
           ~ occurs_in "positive" said /\ ~ occurs_in "negative" said)
  end.
Proof.
  unfold App.analyze_sentiment.
  destruct (client (App.sentiment_request text)) as [content|e]; [|reflexivity].
  cbv zeta. set (said := Py.lower (Py.strip content)).
  pose proof (contains_occurs "positive" said) as Hpositive.
  pose proof (contains_occurs "negative" said) as Hnegative.
  destruct (Py.contains "positive" said), (Py.contains "negative" said);
    eexists; (split; [reflexivity|]); (split; [cbn; tauto|]);
    intuition (auto; try discriminate; try congruence).
Qed.

(** X20. [summarize_email] of [app.py] has no fallback either.  When the
    client answers, the summary is the answer with nothing but whitespace
    taken away before and after it, and it neither begins nor ends with
    whitespace. *)
Theorem app_summary_is_the_trimmed_answer (client : App.Client) (text : string) :
  match client (App.summary_request text) with
  | Raise e => App.summarize_email client text = Raise e
  | Ok content =>
      exists s before after,
        App.summarize_email client text = Ok s /\
        content = before +:+ s +:+ after /\
        all_chars Py.isspace before = true /\
        all_chars Py.isspace after = true /\
        trimmed s
  end.
Proof.
  unfold App.summarize_email.
  destruct (client (App.summary_request text)) as [content|e]; [|reflexivity].
  destruct (strip_split content) as (before & after & Heq & Hb & Ha).
  exists (Py.strip content), before, after.
  split; [reflexivity|]. split; [exact Heq|]. split; [exact Hb|].
  split; [exact Ha | apply strip_trimmed].
Qed.

End AppHelpers.

(** ** Choosing the configuration *)

Section Configuration.

Lemma unset_provided (environ : gmap string string) (var : string) :
  Config.unset environ var = false <-> provided environ var.
Proof.
  unfold Config.unset, Config.os_getenv, provided.
  destruct (environ !! var) as [v|].
  - destruct v as [|c v]; cbn; split.
    + discriminate.
    + intros (v' & [= <-] & Hv). congruence.
    + intros _. eexists. split; [reflexivity | discriminate].
    + reflexivity.
  - split; [discriminate|]. intros (v & Hv & _). discriminate.
Qed.

Lemma filter_none {A} (f : A -> bool) (l : list A) :
  List.filter f l = [] <-> forall x, In x l -> f x = false.
Proof.
  induction l as [|a l IH]; cbn [List.filter].
  - split; [intros _ x [] | reflexivity].
  - destruct (f a) eqn:Ha; split.
    + discriminate.
    + intros Hall. specialize (Hall a (or_introl eq_refl)). congruence.
    + intros Hnil x [<-|Hx]; [exact Ha | now apply IH].
    + intros Hall. apply IH. intros x Hx. apply Hall. now right.
Qed.

Lemma filter_positions {A} (f : A -> bool) (l : list A) (d : A) :
  exists positions,
    List.filter f l = List.map (fun i => List.nth i l d) positions /\
    Sorted.StronglySorted lt positions.
Proof.
  induction l as [|a l (positions & Heq & Hsorted)].
  - exists []. split; [reflexivity | constructor].
  - assert (Hshift : List.filter f l
                     = List.map (fun i => List.nth i (a :: l) d) (List.map S positions)).
    { rewrite List.map_map. exact Heq. }
    assert (Hsorted' : Sorted.StronglySorted lt (List.map S positions)).
    { clear -Hsorted. induction Hsorted as [|i positions Hs IH Hall]; cbn; constructor.
      - exact IH.
      - rewrite List.Forall_map. eapply List.Forall_impl; [|exact Hall].
        intros j Hj. cbn. lia. }
    cbn [List.filter]. destruct (f a).
    + exists (0%nat :: List.map S positions). split.
      * rewrite Hshift. reflexivity.
      * constructor; [exact Hsorted'|].
        rewrite List.Forall_map. apply List.Forall_forall. intros j _. cbn. lia.
    + exists (List.map S positions). split; [exact Hshift | exact Hsorted'].
Qed.

Lemma validate_run (environ : gmap string string) :
  (Config.validate environ = Config.Returned tt /\
   forall var, In var Config.required_vars -> provided environ var) \/
  (Config.validate environ
   = Config.Raised ValueError
       ("Missing required environment variables: "
        +:+ Py.join ", " (List.filter (Config.unset environ) Config.required_vars)) /\
   exists var, In var Config.required_vars /\ ~ provided environ var).
Proof.
  unfold Config.validate.
  destruct (List.filter (Config.unset environ) Config.required_vars)
    as [|var missing] eqn:Hmissing.
  - left. split; [reflexivity|].
    intros var Hvar. apply unset_provided.
    now apply (proj1 (filter_none _ _) Hmissing).
  - right. split; [reflexivity|].
    assert (Hin : In var (List.filter (Config.unset environ) Config.required_vars))
      by (rewrite Hmissing; now left).
    apply List.filter_In in Hin as [Hin Hunset].
    exists var. split; [exact Hin|].
    rewrite <- unset_provided. congruence.
Qed.

(** X21. [ProductionConfig.validate] returns exactly when every one of the
    ten required variables is set to a non-empty value.  Otherwise it
    raises [ValueError], and its message names the variables that are
    unset or empty, and only those, in the order of the list, each once,
    separated by a comma and a blank. *)
Theorem validate_names_what_is_missing (environ : gmap string string) :
  let missing := List.filter (Config.unset environ) Config.required_vars in
  (Config.validate environ = Config.Returned tt <->
     forall var, In var Config.required_vars -> provided environ var) /\
  (Config.validate environ <> Config.Returned tt ->
     Config.validate environ
     = Config.Raised ValueError
         ("Missing required environment variables: " +:+ Py.join ", " missing)) /\
  (forall var,
     In var missing <-> In var Config.required_vars /\ ~ provided environ var) /\
  List.NoDup missing /\
  (exists positions,
     missing = List.map (fun i => List.nth i Config.required_vars EmptyString) positions /\
     Sorted.StronglySorted lt positions).
Proof.
  cbv zeta. split; [|split; [|split; [|split]]].
  - destruct (validate_run environ) as [[Hrun Hall]|[Hrun (var & Hvar & Hnot)]].
    + tauto.
    + rewrite Hrun. split; [discriminate|]. intros Hall. destruct Hnot. auto.
  - destruct (validate_run environ) as [[Hrun _]|[Hrun _]]; [congruence | auto].
  - intros var. rewrite List.filter_In, <- unset_provided.
    destruct (Config.unset environ var); split; intros [Hin Hv]; split; auto; congruence.
  - apply List.NoDup_filter. unfold Config.required_vars.
    repeat (constructor; [cbn; intuition discriminate|]). constructor.
  - apply filter_positions.
Qed.

(** X22. [get_config] validates in one case only: when [FLASK_ENV] is
    unset or is exactly production.  Then it returns the production class
    if every required variable is provided and raises [ValueError]
    otherwise.  For development and testing it returns their class
    whatever is missing, and for any other name, such as a misspelt one, it
    returns the production class without validating anything. *)
Theorem get_config_validates_production_only (environ : gmap string string) :
  match environ !! "FLASK_ENV" with
  | None =>
      (Config.get_config environ = Config.Returned Config.ProductionConfig <->
         forall var, In var Config.required_vars -> provided environ var) /\
      (Config.get_config environ <> Config.Returned Config.ProductionConfig ->
         exists message, Config.get_config environ = Config.Raised ValueError message)
  | Some env =>
      (env = "production" ->
         (Config.get_config environ = Config.Returned Config.ProductionConfig <->
            forall var, In var Config.required_vars -> provided environ var) /\
         (Config.get_config environ <> Config.Returned Config.ProductionConfig ->
            exists message, Config.get_config environ = Config.Raised ValueError message)) /\
      (env = "development" ->
         Config.get_config environ = Config.Returned Config.DevelopmentConfig) /\
      (env = "testing" ->
         Config.get_config environ = Config.Returned Config.TestingConfig) /\
      (env <> "production" -> env <> "development" -> env <> "testing" ->
         Config.get_config environ = Config.Returned Config.ProductionConfig)
  end.
Proof.
  pose (checked := fun class : Config.ConfigClass =>
    match Config.validate environ with
    | Config.Raised c message => Config.Raised c message
    | Config.Returned _ => Config.Returned class
    end).
  assert (Hproduction :
    forall class,
      checked class = Config.Returned class <->
      forall var, In var Config.required_vars -> provided environ var).
  { intros class. unfold checked.
    destruct (validate_run environ) as [[-> Hall]|[-> (var & Hvar & Hnot)]].
    - tauto.
    - split; [discriminate|]. intros Hall. destruct Hnot. auto. }
  assert (Hraises :
    forall class,
      checked class <> Config.Returned class ->
      exists message, checked class = Config.Raised ValueError message).
  { intros class. unfold checked.
    destruct (validate_run environ) as [[-> _]|[-> _]]; [congruence | eauto]. }
  unfold Config.get_config, Config.os_getenv_default.
  destruct (environ !! "FLASK_ENV") as [env|].
  - split; [|split; [|split]].
    + intros ->. split; [apply Hproduction | apply Hraises].
    + intros ->. reflexivity.
    + intros ->. reflexivity.
    + intros Hp Hd Ht. unfold Config.config_by_env.
      rewrite (proj2 (String.eqb_neq env "production") Hp),
        (proj2 (String.eqb_neq env "development") Hd),
        (proj2 (String.eqb_neq env "testing") Ht).
      reflexivity.
  - split; [apply Hproduction | apply Hraises].
Qed.

End Configuration.
